(** * The code-editing workflow of nous ([src/swe/codeEditingAgent.ts],
    [src/swe/codeEditor.ts]) as a shallow embedding.

    The workflow is sequential effectful code: every collaborator call is
    awaited before the next statement runs.  It is embedded in a small
    state-and-exception monad.  The state holds the history of collaborator
    calls made so far and the one JavaScript array that is mutated while an
    exception may be in flight ([initialSelectedFiles]).  Unlike a state
    transformer stacked on an error monad, a thrown exception keeps the
    state reached so far, as in JavaScript.

    Collaborators whose code is outside the two source files (project
    detection, file selection, the language models, the error analyzer,
    process execution, the file system and version control) are fields of a
    [World] record.  Each answer may depend on the whole history, so a world
    stands for an arbitrary, possibly stateful, environment.

    Not modelled: logger calls, tracing spans and cost accounting (their
    results are never used, the cost block of the editor swallows its own
    exceptions), and the decorators [@func], [@funcClass], [@cacheRetry].
    The two parsers of the cost block, [parseAiderInput] and
    [parseAiderOutput], are pure and are modelled on their own. *)

From Stdlib Require Import String Ascii List ZArith Lia Bool DecimalString.
Import ListNotations.
Local Open Scope string_scope.
Local Open Scope list_scope.
Local Open Scope Z_scope.

(** ** JavaScript strings and values *)

Module Js.

(** Line feed, the [\n] of the source's string literals. *)
Definition nl : string := String (ascii_of_nat 10) EmptyString.
Definition tab : string := String (ascii_of_nat 9) EmptyString.
Definition dq : string := String (ascii_of_nat 34) EmptyString.

(** A character stands for a code unit below 256.  ECMAScript's WhiteSpace
    and LineTerminator productions in that range: TAB, LF, VT, FF, CR, SP and
    NBSP. *)
Definition isWhiteSpace (c : ascii) : bool :=
  let n := nat_of_ascii c in
  (Nat.eqb n 9 || Nat.eqb n 10 || Nat.eqb n 11 || Nat.eqb n 12
   || Nat.eqb n 13 || Nat.eqb n 32 || Nat.eqb n 160)%bool.

Fixpoint trimStart (s : string) : string :=
  match s with
  | EmptyString => EmptyString
  | String c s' => if isWhiteSpace c then trimStart s' else s
  end.

Fixpoint trimEnd (s : string) : string :=
  match s with
  | EmptyString => EmptyString
  | String c s' =>
      match trimEnd s' with
      | EmptyString => if isWhiteSpace c then EmptyString else String c EmptyString
      | t => String c t
      end
  end.

(** [String.prototype.trim]. *)
Definition trim (s : string) : string := trimEnd (trimStart s).

(** [Array.prototype.join] on an array of strings. *)
Fixpoint join (sep : string) (l : list string) : string :=
  match l with
  | [] => ""
  | [x] => x
  | x :: rest => (x ++ sep ++ join sep rest)%string
  end.

(** Truthiness of an optional string: [undefined], [null] and [''] are
    falsy. *)
Definition truthy (v : option string) : bool :=
  match v with
  | Some s => negb (String.eqb s "")
  | None => false
  end.

(** [a || b] on optional strings. *)
Definition or (a b : option string) : option string :=
  if truthy a then a else b.

(** A value interpolated in a template literal: [null] prints as "null". *)
Definition render (v : option string) : string :=
  match v with
  | Some s => s
  | None => "null"
  end.

(** Number to string, for integers. *)
Definition numberToString (n : Z) : string := NilZero.string_of_int (Z.to_int n).

(** All characters of a string satisfy [p]. *)
Fixpoint all (p : ascii -> bool) (s : string) : bool :=
  match s with
  | EmptyString => true
  | String c s' => (p c && all p s')%bool
  end.

(** [String.prototype.split] with the separator "\n": the lines of a text;
    the empty text has one empty line. *)
Fixpoint splitLines (s : string) : list string :=
  match s with
  | EmptyString => [""]
  | String c s' =>
      if Ascii.eqb c (ascii_of_nat 10) then "" :: splitLines s'
      else match splitLines s' with
           | line :: rest => String c line :: rest
           | [] => [String c ""]
           end
  end.

(** The rest of [s] after [p], when [s] starts with [p]. *)
Fixpoint afterPrefix (p s : string) : option string :=
  match p, s with
  | EmptyString, _ => Some s
  | String a p', String b s' => if Ascii.eqb a b then afterPrefix p' s' else None
  | String _ _, EmptyString => None
  end.

(** [line.replace(/^(r1|r2|...)\s/, '')]: the first alternative that occurs
    at the start of the line followed by a white space character is removed
    together with that character; [\s] matches the characters of
    [isWhiteSpace]. *)
Fixpoint removeLeading (alternatives : list string) (line : string) : string :=
  match alternatives with
  | [] => line
  | alternative :: others =>
      match afterPrefix alternative line with
      | Some (String c rest) =>
          if isWhiteSpace c then rest else removeLeading others line
      | _ => removeLeading others line
      end
  end.

End Js.

(** ** Data model *)

(** An entry of a file list.  The arrays are typed [string[]], but the
    project is compiled without strict null checks and the editor guards
    against [null] entries, so an entry is a string or [null]. *)
Definition FileEntry := option string.

(** [ProjectInfo] (declared in [./projectDetection]).  [test] and
    [staticAnalysis] are optional commands; [languageTools] tells whether the
    optional package-install capability is present. *)
Record ProjectInfo := {
  baseDir : string;
  (** the [compile] field *)
  compileCmd : string;
  test : option string;
  staticAnalysis : option string;
  languageTools : bool
}.

(** An element of [SelectFilesResponse.primaryFiles] / [secondaryFiles]. *)
Record SelectedFile := { path : FileEntry; reason : string }.

Record SelectFilesResponse := {
  primaryFiles : list SelectedFile;
  secondaryFiles : list SelectedFile
}.

(** [CompileErrorAnalysis] (declared in [#swe/analyzeCompileErrors]): both
    fields are optional. *)
Record CompileErrorAnalysis := {
  additionalFiles : option (list FileEntry);
  installPackages : option (list string)
}.

(** Result of [execCommand]. *)
Record ExecResult := { exitCode : Z; stdout : string; stderr : string }.

(** Second argument of [execCommand]. *)
Inductive ExecOpts :=
| NoOpts
| Cwd (workingDirectory : string)
| EnvVars (name value : string).

(** The method on whose behalf a command is executed. *)
Inductive Primitive := Compile | StaticAnalysis | Tests | Aider.

(** Calls that reach a collaborator (or enter the editor or the test loop),
    in the order they happen. *)
Inductive Event :=
| EvDetectProjectInfo
| EvSetWorkingDirectory (dir : string)
| EvSelectFilesToEdit (requirements : string)
| EvGenerateText (prompt : string)
| EvGenerateTextAsJson (prompt : string)
| EvInstallPackage (packageName : string)
| EvAnalyzeCompileErrors (output : string) (files : list FileEntry)
| EvEditFiles (requirements : string) (filesToEdit : list FileEntry)
| EvWriteFile (filePath contents : string)
| EvMkdir (dir : string)
| EvWriteFileSync (filePath : string)
| EvExec (by_ : Primitive) (cmd : string) (opts : ExecOpts)
| EvCommit (message : string)
| EvTestLoop.

Definition History := list Event.

(** The environment of a run.  Each collaborator is a function of the
    history of calls made so far and is taken to return: of the calls made
    outside the two source files, the executed commands (through their exit
    code) and [writeFileSync] are the ones whose failure is modelled.  A
    rejection of any other awaited call is outside the model, so what is
    proved about a run holds for the runs in which these calls return. *)
Record World := {
  detectProjectInfo : History -> list ProjectInfo;
  getWorkingDirectory : History -> string;
  pathJoin : string -> string -> string;
  selectFilesToEdit : History -> string -> ProjectInfo -> SelectFilesResponse;
  getMultipleFileContentsAsXml : History -> list FileEntry -> string;
  listFilesRecursively : History -> list string;
  generateText : History -> string -> string;
  (** the [files] field of the JSON answer *)
  generateTextAsJson : History -> string -> list FileEntry;
  analyzeCompileErrors : History -> string -> list FileEntry -> CompileErrorAnalysis;
  execCommand : History -> string -> ExecOpts -> ExecResult;
  getFilesAddedInHeadCommit : History -> list FileEntry;
  (** [writeFileSync]: [Some m] when it throws an error with message [m] *)
  writeFileSync : History -> string -> option string;
  dateNow : History -> Z;
  agentId : string;
  basePrompt : string;
  userAnthropicKey : option string;
  envAnthropicKey : option string;
  userDeepseekKey : option string;
  envDeepseekKey : option string;
  userOpenaiKey : option string;
  envOpenaiKey : option string
}.

(** ** The monad *)

Record State := {
  history : History;
  initialSelectedFiles : list FileEntry
}.

Inductive Res (A : Type) :=
| Ok (a : A)
| Throw (message : string).
Arguments Ok {A} a.
Arguments Throw {A} message.

Definition M (A : Type) : Type := State -> Res A * State.

Definition ret {A} (a : A) : M A := fun s => (Ok a, s).

Definition bind {A B} (m : M A) (k : A -> M B) : M B :=
  fun s =>
    match m s with
    | (Ok a, s') => k a s'
    | (Throw e, s') => (Throw e, s')
    end.

(** [throw new Error(message)]. *)
Definition throw {A} (message : string) : M A := fun s => (Throw message, s).

(** [try { m } catch (e) { ... }], reified: the outcome of [m] becomes a
    value and the state reached by [m] is kept. *)
Definition attempt {A} (m : M A) : M (Res A) :=
  fun s => let (r, s') := m s in (Ok r, s').

Declare Scope m_scope.
Delimit Scope m_scope with M.
Notation "x <- m ;; k" := (bind m (fun x => k))
  (at level 61, m at next level, right associativity) : m_scope.
Notation "m ;; k" := (bind m (fun _ => k))
  (at level 61, right associativity) : m_scope.
Local Open Scope m_scope.

(** A call that changes the world: it is appended to the history. *)
Definition emit (e : Event) : M unit :=
  fun s => (Ok tt, {| history := history s ++ [e];
                      initialSelectedFiles := initialSelectedFiles s |}).

(** An answer of the world, read at the current history. *)
Definition ask {A} (f : History -> A) : M A :=
  fun s => (Ok (f (history s)), s).

(** A call that is recorded and answered; the answer is a function of the
    history before the call. *)
Definition call {A} (e : Event) (f : History -> A) : M A :=
  a <- ask f ;; emit e ;; ret a.

Definition getSelected : M (list FileEntry) :=
  fun s => (Ok (initialSelectedFiles s), s).

Definition setSelected (l : list FileEntry) : M unit :=
  fun s => (Ok tt, {| history := history s; initialSelectedFiles := l |}).

(** [initialSelectedFiles.push(...l)]. *)
Definition pushSelected (l : list FileEntry) : M unit :=
  fun s => (Ok tt, {| history := history s;
                      initialSelectedFiles := initialSelectedFiles s ++ l |}).

(** [for (const x of l) { await f(x) }]. *)
Fixpoint forEach {A} (l : list A) (f : A -> M unit) : M unit :=
  match l with
  | [] => ret tt
  | x :: rest => f x ;; forEach rest f
  end.

(** ** [CodeEditor] ([src/swe/codeEditor.ts]) *)

Module CodeEditor.
Section WithWorld.
Variable w : World.

Definition messageFilePath : string := ".aider-requirements".

(** The predicate of [filesToEdit.filter((file) => file?.trim().length)]:
    the optional chain yields [undefined] on [null], and a length is truthy
    when it is not 0. *)
Definition keepFile (file : FileEntry) : bool :=
  match file with
  | None => false
  | Some s => negb (Nat.eqb (String.length (Js.trim s)) 0)
  end.

(** [`"${file}"`]. *)
Definition quoteFile (file : FileEntry) : string :=
  (Js.dq ++ Js.render file ++ Js.dq)%string.

(** The template literal of the [aider] command line. *)
Definition aiderCommand (modelArg llmHistoryFile : string)
    (filesToEdit : list FileEntry) : string :=
  ("aider --no-check-update --yes " ++ modelArg
   ++ " --llm-history-file=" ++ Js.dq ++ llmHistoryFile ++ Js.dq
   ++ " --message-file=" ++ messageFilePath ++ " "
   ++ Js.join " " (map quoteFile filesToEdit))%string.

(** Choice of the model argument and of the environment passed to aider,
    [None] when no key is configured. *)
Definition selectModel : option (string * ExecOpts) :=
  let anthropicKey := Js.or (userAnthropicKey w) (envAnthropicKey w) in
  let deepSeekKey := Js.or (userDeepseekKey w) (envDeepseekKey w) in
  let openaiKey := Js.or (userOpenaiKey w) (envOpenaiKey w) in
  if Js.truthy anthropicKey then
    Some ("--sonnet", EnvVars "ANTHROPIC_API_KEY" (Js.render anthropicKey))
  else if Js.truthy deepSeekKey then
    Some ("--model deepseek/deepseek-coder",
          EnvVars "DEEPSEEK_API_KEY" (Js.render deepSeekKey))
  else if Js.truthy openaiKey then
    Some ("", EnvVars "OPENAI_API_KEY" (Js.render openaiKey))
  else None.

Definition editFilesToMeetRequirements (requirements : string)
    (filesToEdit : list FileEntry) : M unit :=
  emit (EvEditFiles requirements filesToEdit) ;;
  emit (EvWriteFile messageFilePath requirements) ;;
  let filesToEdit := filter keepFile filesToEdit in
  match selectModel with
  | None =>
      throw "Aider code editing requires a key for Anthropic, Deepseek or OpenAI"
  | Some (modelArg, env) =>
      emit (EvMkdir ".nous/aider/llm-history") ;;
      now <- ask (dateNow w) ;;
      let llmHistoryFile :=
        (".nous/aider/llm-history/" ++ agentId w ++ "-" ++ Js.numberToString now)%string in
      failure <- call (EvWriteFileSync llmHistoryFile)
                      (fun h => writeFileSync w h llmHistoryFile) ;;
      match failure with
      | Some message =>
          throw ("Fatal Error reading/writing Aider llmH-history-file. Error: "
                 ++ message)%string
      | None =>
          let cmd := aiderCommand modelArg llmHistoryFile filesToEdit in
          r <- call (EvExec Aider cmd env) (fun h => execCommand w h cmd env) ;;
          if 0 <? exitCode r
          then throw (stdout r ++ " " ++ stderr r)%string
          else ret tt
      end
  end.

End WithWorld.

(** Lines 108-114. *)
Definition parseAiderInput (output : string) : string :=
  Js.join Js.nl
    (map (Js.removeLeading ["SYSTEM"; "USER"]%string)
       (filter (fun line => (prefix "SYSTEM" line || prefix "USER" line)%bool)
          (Js.splitLines output))).

(** Lines 116-122. *)
Definition parseAiderOutput (output : string) : string :=
  Js.join Js.nl
    (map (Js.removeLeading ["ASSISTANT"]%string)
       (filter (fun line => prefix "ASSISTANT" line)
          (Js.splitLines output))).

End CodeEditor.

(** ** [CodeEditingAgent] ([src/swe/codeEditingAgent.ts]) *)

Module CodeEditingAgent.
Section WithWorld.
Variable w : World.

Definition buildPrompt (information requirements action : string) : string :=
  (basePrompt w ++ Js.nl ++ information ++ Js.nl ++ Js.nl
   ++ "The requirements of the task are as follows:" ++ Js.nl
   ++ "<requirements>" ++ Js.nl ++ requirements ++ Js.nl ++ "</requirements>"
   ++ Js.nl ++ Js.nl ++ "The action to be performed is as follows:" ++ Js.nl
   ++ "<action>" ++ Js.nl ++ action ++ Js.nl ++ "</action>" ++ Js.nl)%string.

(** The text of the error thrown by [compile]. *)
Definition compileOutput (command out err : string) : string :=
  ("<compile_output>" ++ Js.nl
   ++ Js.tab ++ "<command>" ++ command ++ "</command>" ++ Js.nl
   ++ Js.tab ++ "<stdout>" ++ Js.nl
   ++ Js.tab ++ out ++ Js.nl
   ++ Js.tab ++ "</stdout>" ++ Js.nl
   ++ Js.tab ++ "<stderr>" ++ Js.nl
   ++ Js.tab ++ err ++ Js.nl
   ++ Js.tab ++ "</stderr>" ++ Js.nl
   ++ "</compile_output>")%string.

Definition compile (projectInfo : ProjectInfo) : M unit :=
  cwd <- ask (getWorkingDirectory w) ;;
  let command := compileCmd projectInfo in
  r <- call (EvExec Compile command (Cwd cwd))
            (fun h => execCommand w h command (Cwd cwd)) ;;
  let result := compileOutput command (stdout r) (stderr r) in
  if 0 <? exitCode r then throw result else ret tt.

(** The text of the error thrown by [runStaticAnalysis]; the [command]
    element holds the compile command, as in the source. *)
Definition staticAnalysisOutput (projectInfo : ProjectInfo) (out err : string)
  : string :=
  ("<static_analysis_output><command>" ++ compileCmd projectInfo
   ++ "</command><stdout></stdout>" ++ out ++ "<stderr>" ++ err
   ++ "</stderr></static_analysis_output>")%string.

Definition runStaticAnalysis (projectInfo : ProjectInfo) : M unit :=
  if negb (Js.truthy (staticAnalysis projectInfo)) then ret tt
  else
    let command := Js.render (staticAnalysis projectInfo) in
    r <- call (EvExec StaticAnalysis command NoOpts)
              (fun h => execCommand w h command NoOpts) ;;
    let result := staticAnalysisOutput projectInfo (stdout r) (stderr r) in
    if 0 <? exitCode r then throw result else ret tt.

Definition testOutput (command out err : string) : string :=
  ("<test_output><command>" ++ command ++ "</command><stdout></stdout>"
   ++ out ++ "<stderr>" ++ err ++ "</stderr></test_output>")%string.

Definition runTests (projectInfo : ProjectInfo) : M unit :=
  if negb (Js.truthy (test projectInfo)) then ret tt
  else
    let command := Js.render (test projectInfo) in
    r <- call (EvExec Tests command NoOpts)
              (fun h => execCommand w h command NoOpts) ;;
    let result := testOutput command (stdout r) (stderr r) in
    if 0 <? exitCode r then throw result else ret tt.

Definition extractFilenamesAction : string :=
  ("You will respond ONLY in JSON. From the requirements quietly consider which the files may be required to complete the task. You MUST output your answer ONLY as JSON in the format of this example:"
   ++ Js.nl ++ "<example>" ++ Js.nl ++ "{" ++ Js.nl ++ " files: ["
   ++ Js.dq ++ "file1" ++ Js.dq ++ ", " ++ Js.dq ++ "file2" ++ Js.dq ++ ", "
   ++ Js.dq ++ "file3" ++ Js.dq ++ "]" ++ Js.nl ++ "}" ++ Js.nl
   ++ "</example>")%string.

Definition extractFilenames (summary : string) : M (list FileEntry) :=
  filenames <- ask (listFilesRecursively w) ;;
  let prompt :=
    buildPrompt
      ("<project_files>" ++ Js.nl ++ Js.join Js.nl filenames ++ Js.nl
       ++ "</project_files>")%string
      summary extractFilenamesAction in
  call (EvGenerateTextAsJson prompt) (fun h => generateTextAsJson w h prompt).

(** [await analyzeCompileErrors(output, initialSelectedFiles)]. *)
Definition analyze (output : string) : M CompileErrorAnalysis :=
  files <- getSelected ;;
  call (EvAnalyzeCompileErrors output files)
       (fun h => analyzeCompileErrors w h output files).

(** The message of the TypeError raised by reading a property of [null]. *)
Definition nullPropertyError (property : string) : string :=
  ("Cannot read properties of null (reading '" ++ property ++ "')")%string.

Definition MAX_ATTEMPTS : nat := 2.
Definition STATIC_ANALYSIS_MAX_ATTEMPTS : nat := 2.

(** The [try] block of the edit-compile loop, lines 71-91, at loop index
    [i].  [errorAnalysis] and [compileErrorOutput] are the values of the
    two variables on entry.  Line 76 reads [errorAnalysis.installPackages]
    without an optional chain, so it throws when [errorAnalysis] is
    [null].  The [files.push(...newFiles)] of line 89 changes the local copy
    after its last use and is left out. *)
Definition editCompileTry (i : nat) (implementationRequirements : string)
    (projectInfo : ProjectInfo) (errorAnalysis : option CompileErrorAnalysis)
    (compileErrorOutput : option string) : M unit :=
  files <- getSelected ;;
  let editRequirements :=
    match errorAnalysis with
    | Some _ =>
        (implementationRequirements ++ Js.nl
         ++ "Immediate task: Fix the following compile errors:" ++ Js.nl
         ++ Js.render compileErrorOutput)%string
    | None => implementationRequirements
    end in
  let files :=
    match errorAnalysis with
    | Some {| additionalFiles := Some more |} => files ++ more
    | _ => files
    end in
  match errorAnalysis with
  | None => throw (nullPropertyError "installPackages")
  | Some analysis =>
      match installPackages analysis with
      | Some packages =>
          forEach packages (fun packageName =>
            if languageTools projectInfo
            then emit (EvInstallPackage packageName)
            else ret tt)
      | None => ret tt
      end
  end ;;
  (if Nat.eqb i 0 then compile projectInfo else ret tt) ;;
  CodeEditor.editFilesToMeetRequirements w editRequirements files ;;
  newFiles <- ask (getFilesAddedInHeadCommit w) ;;
  pushSelected newFiles ;;
  compile projectInfo.

(** The edit-compile loop, lines 69-101, with [remaining] iterations left
    from index [i]; it returns the final values of [errorAnalysis] and
    [compileErrorOutput]. *)
Fixpoint editCompileLoop (remaining i : nat) (implementationRequirements : string)
    (projectInfo : ProjectInfo) (errorAnalysis : option CompileErrorAnalysis)
    (compileErrorOutput : option string)
  : M (option CompileErrorAnalysis * option string) :=
  match remaining with
  | O => ret (errorAnalysis, compileErrorOutput)
  | S remaining' =>
      r <- attempt (editCompileTry i implementationRequirements projectInfo
                      errorAnalysis compileErrorOutput) ;;
      match r with
      | Ok _ => ret (None, compileErrorOutput)
      | Throw message =>
          analysis <- analyze message ;;
          editCompileLoop remaining' (S i) implementationRequirements
            projectInfo (Some analysis) (Some message)
      end
  end.

Definition commitMessage : string := "Fix static analysis errors".

(** The static-analysis loop, lines 107-126. *)
Fixpoint staticAnalysisLoop (remaining i : nat) (projectInfo : ProjectInfo)
    (compileErrorOutput : option string) : M unit :=
  match remaining with
  | O => ret tt
  | S remaining' =>
      r <- attempt (runStaticAnalysis projectInfo ;;
                    emit (EvCommit commitMessage)) ;;
      match r with
      | Ok _ => ret tt
      | Throw _ =>
          emit (EvCommit commitMessage) ;;
          (if Nat.eqb i (STATIC_ANALYSIS_MAX_ATTEMPTS - 1) then ret tt
           else
             staticErrorFiles <-
               extractFilenames
                 (Js.render compileErrorOutput ++ Js.nl ++ Js.nl
                  ++ "Extract the filenames from the compile errors.")%string ;;
             CodeEditor.editFilesToMeetRequirements w
               ("Static analysis command: "
                ++ Js.render (staticAnalysis projectInfo) ++ Js.nl
                ++ Js.render compileErrorOutput ++ Js.nl
                ++ "Fix these static analysis errors")%string
               staticErrorFiles) ;;
          staticAnalysisLoop remaining' (S i) projectInfo compileErrorOutput
      end
  end.

(** Lines 105-127. *)
Definition staticAnalysisStage (projectInfo : ProjectInfo)
    (compileErrorOutput : option string) : M unit :=
  if Js.truthy (staticAnalysis projectInfo)
  then staticAnalysisLoop STATIC_ANALYSIS_MAX_ATTEMPTS 0 projectInfo
         compileErrorOutput
  else ret tt.

Definition testRequirements (requirements : string) : string :=
  (requirements ++ Js.nl
   ++ "Some of the requirements may have already been implemented, so don't duplicate any existing implementation meeting the requirements."
   ++ Js.nl ++ "Write any additional tests that would be of value.")%string.

(** The [try] block of the test loop, lines 186-190.  The array passed in
    is the caller's [initialSelectedFiles]. *)
Definition testTry (requirements : string) (projectInfo : ProjectInfo) : M unit :=
  files <- getSelected ;;
  CodeEditor.editFilesToMeetRequirements w (testRequirements requirements) files ;;
  compile projectInfo ;;
  runTests projectInfo.

Fixpoint testRounds (remaining : nat) (requirements : string)
    (projectInfo : ProjectInfo) (errorAnalysis : option CompileErrorAnalysis)
  : M (option CompileErrorAnalysis) :=
  match remaining with
  | O => ret errorAnalysis
  | S remaining' =>
      r <- attempt (testTry requirements projectInfo) ;;
      match r with
      | Ok _ => ret None
      | Throw testErrorOutput =>
          analysis <- analyze testErrorOutput ;;
          testRounds remaining' requirements projectInfo (Some analysis)
      end
  end.

Definition testLoop (requirements : string) (projectInfo : ProjectInfo)
    (projectPath : string) : M (option CompileErrorAnalysis) :=
  emit EvTestLoop ;;
  if negb (Js.truthy (test projectInfo)) then ret None
  else testRounds MAX_ATTEMPTS requirements projectInfo None.

(** The prompt of the implementation specification, lines 50-56. *)
Definition implementationPrompt (fileContents requirements : string) : string :=
  (fileContents ++ Js.nl
   ++ Js.tab ++ Js.tab ++ "<requirements>" ++ requirements ++ "</requirements>" ++ Js.nl
   ++ Js.tab ++ Js.tab ++ "You are a senior software engineer. Your job is to review the provided user requirements against the code provided and produce an implementation design specification to give to a junior developer to implement the changes in the provided files." ++ Js.nl
   ++ Js.tab ++ Js.tab ++ "Do not provide any details of verification commands etc as the CI/CD build will run integration tests. Only detail the changes required in the files for the pull request." ++ Js.nl
   ++ Js.tab ++ Js.tab ++ "Check if any of the requirements have already been correctly implemented in the code as to not duplicate work." ++ Js.nl
   ++ Js.tab ++ Js.tab ++ "Look at the existing style of the code when producing the requirements." ++ Js.nl
   ++ Js.tab ++ Js.tab)%string.

(** Lines 33-37. *)
Definition resolveProjectInfo (projectInfo : option ProjectInfo) : M ProjectInfo :=
  match projectInfo with
  | Some info => ret info
  | None =>
      detected <- call EvDetectProjectInfo (detectProjectInfo w) ;;
      match detected with
      | [info] => ret info
      | _ => throw "projectInfo array must have one item"
      end
  end.

(** What the first part of the workflow leaves to the rest. *)
Record Gate := {
  gateProject : ProjectInfo;
  gateProjectPath : string;
  gateAnalysis : option CompileErrorAnalysis;
  gateOutput : option string
}.

(** Lines 33-101: project resolution, file selection, implementation
    specification and the edit-compile loop. *)
Definition editCompileStage (requirements : string)
    (projectInfo : option ProjectInfo) : M Gate :=
  projectInfo <- resolveProjectInfo projectInfo ;;
  cwd <- ask (getWorkingDirectory w) ;;
  let projectPath := pathJoin w cwd (baseDir projectInfo) in
  emit (EvSetWorkingDirectory (baseDir projectInfo)) ;;
  filesResponse <- call (EvSelectFilesToEdit requirements)
                        (fun h => selectFilesToEdit w h requirements projectInfo) ;;
  setSelected (map path (primaryFiles filesResponse)
               ++ map path (secondaryFiles filesResponse)) ;;
  files <- getSelected ;;
  contents <- ask (fun h => getMultipleFileContentsAsXml w h files) ;;
  let prompt := implementationPrompt contents requirements in
  implementationRequirements <-
    call (EvGenerateText prompt) (fun h => generateText w h prompt) ;;
  loop <- editCompileLoop MAX_ATTEMPTS 0 implementationRequirements
            projectInfo None None ;;
  ret {| gateProject := projectInfo; gateProjectPath := projectPath;
         gateAnalysis := fst loop; gateOutput := snd loop |}.

(** Lines 103-129. *)
Definition afterEditCompile (requirements : string) (g : Gate) : M unit :=
  match gateAnalysis g with
  | Some _ => ret tt
  | None =>
      staticAnalysisStage (gateProject g) (gateOutput g) ;;
      testLoop requirements (gateProject g) (gateProjectPath g) ;;
      ret tt
  end.

Definition runCodeEditWorkflow (requirements : string)
    (projectInfo : option ProjectInfo) : M unit :=
  g <- editCompileStage requirements projectInfo ;;
  afterEditCompile requirements g.

End WithWorld.
End CodeEditingAgent.

(** The state in which a run starts. *)
Definition initialState : State :=
  {| history := []; initialSelectedFiles := [] |}.

(** ** Observations on runs *)

Definition isExecBy (p : Primitive) (e : Event) : bool :=
  match e, p with
  | EvExec Compile _ _, Compile => true
  | EvExec StaticAnalysis _ _, StaticAnalysis => true
  | EvExec Tests _ _, Tests => true
  | EvExec Aider _ _, Aider => true
  | _, _ => false
  end.

Definition isCommit (e : Event) : bool :=
  match e with EvCommit _ => true | _ => false end.

(** An invocation of the editor. *)
Definition isEditFiles (e : Event) : bool :=
  match e with EvEditFiles _ _ => true | _ => false end.

Definition isTestLoop (e : Event) : bool :=
  match e with EvTestLoop => true | _ => false end.

Definition isInstallPackage (e : Event) : bool :=
  match e with EvInstallPackage _ => true | _ => false end.

(** What the editor does after it has been entered. *)
Definition isEditorInternal (e : Event) : bool :=
  match e with
  | EvWriteFile _ _ | EvMkdir _ | EvWriteFileSync _ | EvExec Aider _ _ => true
  | _ => false
  end.

Definition count (p : Event -> bool) (h : History) : nat :=
  List.length (filter p h).

(** The events a computation adds to the history of [s]. *)
Definition eventsOf {A} (m : M A) (s : State) : History :=
  skipn (List.length (history s)) (history (snd (m s))).

(** [s] after the events [evs]. *)
Definition after (s : State) (evs : History) : State :=
  {| history := history s ++ evs;
     initialSelectedFiles := initialSelectedFiles s |}.

(** The compile executions that precede the first invocation of the editor:
    the baseline compiles. *)
Fixpoint compilesBeforeEdit (h : History) : nat :=
  match h with
  | [] => O
  | EvEditFiles _ _ :: _ => O
  | e :: rest =>
      ((if isExecBy Compile e then 1 else 0) + compilesBeforeEdit rest)%nat
  end.

(** The file lists of the editor invocations, in order. *)
Fixpoint editedFileLists (h : History) : list (list FileEntry) :=
  match h with
  | [] => []
  | EvEditFiles _ files :: rest => files :: editedFileLists rest
  | _ :: rest => editedFileLists rest
  end.

(** The requirement texts of the editor invocations, in order. *)
Fixpoint editRequirementTexts (h : History) : list string :=
  match h with
  | [] => []
  | EvEditFiles requirements _ :: rest => requirements :: editRequirementTexts rest
  | _ :: rest => editRequirementTexts rest
  end.

(** The prompts sent to the filename extraction, in order. *)
Fixpoint extractionPrompts (h : History) : list string :=
  match h with
  | [] => []
  | EvGenerateTextAsJson prompt :: rest => prompt :: extractionPrompts rest
  | _ :: rest => extractionPrompts rest
  end.

(** The commands executed for the editor, in order. *)
Fixpoint aiderCommands (h : History) : list string :=
  match h with
  | [] => []
  | EvExec Aider cmd _ :: rest => cmd :: aiderCommands rest
  | _ :: rest => aiderCommands rest
  end.

(** Every static-analysis run is directly followed by a commit. *)
Fixpoint commitAfterEachAnalysis (h : History) : bool :=
  match h with
  | [] => true
  | EvExec StaticAnalysis _ _ :: rest =>
      match rest with
      | EvCommit _ :: _ => commitAfterEachAnalysis rest
      | _ => false
      end
  | _ :: rest => commitAfterEachAnalysis rest
  end.

Definition isAnalyze (e : Event) : bool :=
  match e with EvAnalyzeCompileErrors _ _ => true | _ => false end.

(** Every test run is directly preceded by a compile execution;
    [previousIsCompile] tells whether the event before [h] is one. *)
Fixpoint testsFollowCompile (previousIsCompile : bool) (h : History) : bool :=
  match h with
  | [] => true
  | e :: rest =>
      ((if isExecBy Tests e then previousIsCompile else true)
       && testsFollowCompile (isExecBy Compile e) rest)%bool
  end.

(** The project the workflow works on: the one passed in, or the single
    detected one. *)
Definition resolvesTo (w : World) (projectInfo : option ProjectInfo)
    (project : ProjectInfo) : Prop :=
  projectInfo = Some project
  \/ (projectInfo = None /\ detectProjectInfo w [] = [project]).

(** The speaker of a line of the editor's history file. *)
Inductive Role := System | User | Assistant.

Definition roleName (r : Role) : string :=
  match r with
  | System => "SYSTEM"
  | User => "USER"
  | Assistant => "ASSISTANT"
  end.

Definition isAssistant (r : Role) : bool :=
  match r with Assistant => true | _ => false end.

(** A history file with one line per entry: the role, a space, the text. *)
Definition transcript (entries : list (Role * string)) : string :=
  Js.join Js.nl (map (fun entry => (roleName (fst entry) ++ " " ++ snd entry)%string) entries).

(** The text holds no line feed. *)
Definition singleLine (text : string) : bool :=
  Js.all (fun c => negb (Ascii.eqb c (ascii_of_nat 10))) text.

(** The calls made once at the start of a run: project detection, the
    change of working directory, file selection and the generation of the
    implementation specification. *)
Definition isSetup (e : Event) : bool :=
  match e with
  | EvDetectProjectInfo | EvSetWorkingDirectory _ | EvSelectFilesToEdit _
  | EvGenerateText _ => true
  | _ => false
  end.

Definition threw {A} (r : Res A) : bool :=
  match r with Throw _ => true | Ok _ => false end.

(** [needle] occurs in [s]. *)
Definition occursIn (needle s : string) : Prop :=
  exists before behind, s = (before ++ needle ++ behind)%string.

(** Run from [s], [m] throws exactly when the exit code of [r] is positive,
    and the error message then carries the captured output of [r]. *)
Definition throwsOnPositiveExit {A} (m : M A) (s : State) (r : ExecResult) : Prop :=
  threw (fst (m s)) = (0 <? exitCode r)
  /\ (forall message, fst (m s) = Throw message ->
      occursIn (stdout r) message /\ occursIn (stderr r) message).

(** An entry that is [null], empty or made of white space only. *)
Definition isBlank (file : FileEntry) : bool :=
  match file with
  | None => true
  | Some s => Js.all Js.isWhiteSpace s
  end.

(** [l] is an initial segment of [l']. *)
Definition extends {A} (l l' : list A) : Prop := exists more, l' = l ++ more.

(** A computation only appends to the working file set. *)
Definition onlyAppends {A} (m : M A) : Prop :=
  forall s, extends (initialSelectedFiles s) (initialSelectedFiles (snd (m s))).

(** A computation leaves the working file set as it is. *)
Definition keepsFiles {A} (m : M A) : Prop :=
  forall s, initialSelectedFiles (snd (m s)) = initialSelectedFiles s.

(** ** Concrete worlds *)

Module Scenario.

Definition succeeded : ExecResult := {| exitCode := 0; stdout := ""; stderr := "" |}.

Definition failed (out err : string) : ExecResult :=
  {| exitCode := 1; stdout := out; stderr := err |}.

Definition diagnosis : CompileErrorAnalysis :=
  {| additionalFiles := Some [Some "x.ts"]; installPackages := None |}.

Definition project : ProjectInfo :=
  {| baseDir := "."; compileCmd := "build"; test := Some "unit-test";
     staticAnalysis := None; languageTools := false |}.

Definition lintedProject : ProjectInfo :=
  {| baseDir := "."; compileCmd := "build"; test := None;
     staticAnalysis := Some "lint"; languageTools := false |}.

(** A world around a given command runner: files [a.ts] selected, every
    diagnosis names [x.ts], an Anthropic key is configured. *)
Definition world (detected : list ProjectInfo)
    (exec : History -> string -> ExecOpts -> ExecResult) : World :=
  {| detectProjectInfo := fun _ => detected;
     getWorkingDirectory := fun _ => "/repo";
     pathJoin := fun a b => (a ++ "/" ++ b)%string;
     selectFilesToEdit := fun _ _ _ =>
       {| primaryFiles := [ {| path := Some "a.ts"; reason := "" |} ];
          secondaryFiles := [] |};
     getMultipleFileContentsAsXml := fun _ _ => "<files/>";
     listFilesRecursively := fun _ => ["a.ts"; "b.ts"]%string;
     generateText := fun _ _ => "design";
     generateTextAsJson := fun _ _ => [Some "b.ts"];
     analyzeCompileErrors := fun _ _ _ => diagnosis;
     execCommand := exec;
     getFilesAddedInHeadCommit := fun _ => [];
     writeFileSync := fun _ _ => None;
     dateNow := fun _ => 1700000000000;
     agentId := "agent";
     basePrompt := "";
     userAnthropicKey := Some "k";
     envAnthropicKey := None;
     userDeepseekKey := None;
     envDeepseekKey := None;
     userOpenaiKey := None;
     envOpenaiKey := None |}.

(** Every command succeeds. *)
Definition execOk : History -> string -> ExecOpts -> ExecResult :=
  fun _ _ _ => succeeded.

(** Scenario A: the test command fails once, then succeeds. *)
Definition execTestFailsOnce : History -> string -> ExecOpts -> ExecResult :=
  fun h cmd _ =>
    if (String.eqb cmd "unit-test" && Nat.eqb (count (isExecBy Tests) h) 0)%bool
    then failed "FAIL case X" ""
    else succeeded.

(** Scenario B: the compile command fails whenever it is run. *)
Definition execCompileFails : History -> string -> ExecOpts -> ExecResult :=
  fun _ cmd _ =>
    if String.eqb cmd "build" then failed "" "error TS1005" else succeeded.

(** The lint command fails whenever it is run. *)
Definition execLintFails : History -> string -> ExecOpts -> ExecResult :=
  fun _ cmd _ =>
    if String.eqb cmd "lint" then failed "a.ts:1 unused variable" "" else succeeded.

(** The lint command fails, and so does the editor once a commit was made. *)
Definition execLintAndRepairFail : History -> string -> ExecOpts -> ExecResult :=
  fun h cmd opts =>
    if String.eqb cmd "lint" then failed "a.ts:1 unused variable" ""
    else match opts with
         | EnvVars _ _ =>
             if Nat.eqb (count isCommit h) 0 then succeeded
             else failed "" "aider: no changes"
         | _ => succeeded
         end.

(** The compile command ends with a negative exit code. *)
Definition execNegative : History -> string -> ExecOpts -> ExecResult :=
  fun _ _ _ => {| exitCode := -1; stdout := "out"; stderr := "err" |}.

(** [w] with other keys: for each provider the key of the user's
    configuration and the key of the process environment. *)
Definition withKeys (w : World)
    (userAnthropic envAnthropic userDeepseek envDeepseek userOpenai envOpenai
     : option string) : World :=
  {| detectProjectInfo := detectProjectInfo w;
     getWorkingDirectory := getWorkingDirectory w;
     pathJoin := pathJoin w;
     selectFilesToEdit := selectFilesToEdit w;
     getMultipleFileContentsAsXml := getMultipleFileContentsAsXml w;
     listFilesRecursively := listFilesRecursively w;
     generateText := generateText w;
     generateTextAsJson := generateTextAsJson w;
     analyzeCompileErrors := analyzeCompileErrors w;
     execCommand := execCommand w;
     getFilesAddedInHeadCommit := getFilesAddedInHeadCommit w;
     writeFileSync := writeFileSync w;
     dateNow := dateNow w;
     agentId := agentId w;
     basePrompt := basePrompt w;
     userAnthropicKey := userAnthropic;
     envAnthropicKey := envAnthropic;
     userDeepseekKey := userDeepseek;
     envDeepseekKey := envDeepseek;
     userOpenaiKey := userOpenai;
     envOpenaiKey := envOpenai |}.

(** No key anywhere; the user's Anthropic key is the empty string. *)
Definition keyless : World :=
  withKeys (world [project] execOk) (Some "") None None None None None.

(** An empty Anthropic key in the user's configuration, an Anthropic key
    and an OpenAI key in the environment. *)
Definition envKeys : World :=
  withKeys (world [project] execOk) (Some "") (Some "env-a") None None
    (Some "user-o") (Some "env-o").

(** The editor command ends with exit code 2. *)
Definition execAiderFails : History -> string -> ExecOpts -> ExecResult :=
  fun _ _ opts =>
    match opts with
    | EnvVars _ _ => {| exitCode := 2; stdout := "out"; stderr := "err" |}
    | _ => succeeded
    end.

(** A project with a lint command and a test command, and language tools. *)
Definition fullProject : ProjectInfo :=
  {| baseDir := "."; compileCmd := "build"; test := Some "unit-test";
     staticAnalysis := Some "lint"; languageTools := true |}.

(** A diagnosis that names two packages. *)
Definition packagesDiagnosis : CompileErrorAnalysis :=
  {| additionalFiles := None; installPackages := Some ["left-pad"; "chalk"]%string |}.

(** Scenario B with a healthy baseline: the compile command passes on the
    tree as it is found and fails once the editor has been invoked. *)
Definition execCompileFailsAfterEdit : History -> string -> ExecOpts -> ExecResult :=
  fun h cmd _ =>
    if (String.eqb cmd "build" && negb (Nat.eqb (count isEditFiles h) 0))%bool
    then failed "" "error TS1005"
    else succeeded.

(** The test command fails whenever it is run. *)
Definition execTestFails : History -> string -> ExecOpts -> ExecResult :=
  fun _ cmd _ =>
    if String.eqb cmd "unit-test" then failed "FAIL case X" "" else succeeded.

(** [w] with another version control and another disk: [added] is what
    [getFilesAddedInHeadCommit] answers, [written] what [writeFileSync]
    does. *)
Definition withFiles (w : World) (added : History -> list FileEntry)
    (written : History -> string -> option string) : World :=
  {| detectProjectInfo := detectProjectInfo w;
     getWorkingDirectory := getWorkingDirectory w;
     pathJoin := pathJoin w;
     selectFilesToEdit := selectFilesToEdit w;
     getMultipleFileContentsAsXml := getMultipleFileContentsAsXml w;
     listFilesRecursively := listFilesRecursively w;
     generateText := generateText w;
     generateTextAsJson := generateTextAsJson w;
     analyzeCompileErrors := analyzeCompileErrors w;
     execCommand := execCommand w;
     getFilesAddedInHeadCommit := added;
     writeFileSync := written;
     dateNow := dateNow w;
     agentId := agentId w;
     basePrompt := basePrompt w;
     userAnthropicKey := userAnthropicKey w;
     envAnthropicKey := envAnthropicKey w;
     userDeepseekKey := userDeepseekKey w;
     envDeepseekKey := envDeepseekKey w;
     userOpenaiKey := userOpenaiKey w;
     envOpenaiKey := envOpenaiKey w |}.

(** The editor's commit adds [new.ts], and the post-edit compile fails. *)
Definition committing : World :=
  withFiles (world [project] execCompileFailsAfterEdit)
    (fun _ => [Some "new.ts"]) (fun _ _ => None).

(** The history file of the editor cannot be created. *)
Definition readOnly : World :=
  withFiles (world [project] execOk) (fun _ => [])
    (fun _ _ => Some "EACCES: permission denied").

End Scenario.


(** ** Strings *)

Lemma trimStart_all s : Js.all Js.isWhiteSpace (Js.trimStart s) = Js.all Js.isWhiteSpace s.
Proof.
  induction s as [|c s IH]; simpl; [reflexivity|].
  destruct (Js.isWhiteSpace c) eqn:Hc; simpl.
  - exact IH.
  - rewrite Hc. reflexivity.
Qed.

Lemma trimEnd_empty s : Js.trimEnd s = "" <-> Js.all Js.isWhiteSpace s = true.
Proof.
  induction s as [|c s IH]; simpl.
  - split; reflexivity.
  - destruct (Js.trimEnd s) eqn:Ht.
    + destruct (Js.isWhiteSpace c); simpl.
      * split; intros _; [apply IH|]; reflexivity.
      * split; discriminate.
    + split; [discriminate|].
      intros H. apply andb_true_iff in H. destruct H as [_ H].
      apply IH in H. discriminate.
Qed.

Lemma trim_length_zero s :
  Nat.eqb (String.length (Js.trim s)) 0 = Js.all Js.isWhiteSpace s.
Proof.
  unfold Js.trim. rewrite <- trimStart_all.
  destruct (Js.all Js.isWhiteSpace (Js.trimStart s)) eqn:Hall.
  - apply trimEnd_empty in Hall. rewrite Hall. reflexivity.
  - destruct (Js.trimEnd (Js.trimStart s)) eqn:Ht; [|reflexivity].
    apply trimEnd_empty in Ht. congruence.
Qed.

(** The source's filter predicate keeps exactly the entries that are not
    blank. *)
Lemma keepFile_not_blank file : CodeEditor.keepFile file = negb (isBlank file).
Proof.
  destruct file as [s|]; simpl; [|reflexivity].
  rewrite trim_length_zero. reflexivity.
Qed.


(** ** Histories *)

Lemma count_app p h1 h2 : count p (h1 ++ h2) = (count p h1 + count p h2)%nat.
Proof. unfold count. rewrite filter_app, length_app. reflexivity. Qed.

Lemma count_none p q h :
  forallb p h = true -> (forall e, p e = true -> q e = false) -> count q h = O.
Proof.
  intros Hall Hpq. induction h as [|e h IH]; [reflexivity|].
  simpl in Hall. apply andb_true_iff in Hall. destruct Hall as [He Hh].
  unfold count in *. simpl. rewrite (Hpq e He). auto.
Qed.

Lemma skipn_length_app {A} (l1 l2 : list A) : skipn (List.length l1) (l1 ++ l2) = l2.
Proof. induction l1; simpl; auto. Qed.

Lemma after_nil s : after s [] = s.
Proof. destruct s. unfold after. simpl. rewrite app_nil_r. reflexivity. Qed.

Lemma after_after s e1 e2 : after (after s e1) e2 = after s (e1 ++ e2).
Proof. unfold after. simpl. rewrite app_assoc. reflexivity. Qed.

(** Right-nested appends with the leading conses exposed. *)
Ltac norm_app :=
  repeat first [rewrite <- app_assoc | progress cbn [app]].

(** When a run ends in [after s evs], [evs] are the events it added. *)
Lemma eventsOf_after {A} (m : M A) s r evs :
  m s = (r, after s evs) -> eventsOf m s = evs.
Proof.
  intros H. unfold eventsOf. rewrite H. simpl. apply skipn_length_app.
Qed.

(** ** Runs of the primitives *)

Import CodeEditingAgent.

Lemma emit_run e s : emit e s = (Ok tt, after s [e]).
Proof. reflexivity. Qed.

Lemma call_run {A} e (f : History -> A) s :
  call e f s = (Ok (f (history s)), after s [e]).
Proof. reflexivity. Qed.

Lemma bind_run {A B} (m : M A) (k : A -> M B) s :
  bind m k s =
  match m s with
  | (Ok a, s') => k a s'
  | (Throw e, s') => (Throw e, s')
  end.
Proof. reflexivity. Qed.

Lemma compile_run w projectInfo s :
  let cwd := getWorkingDirectory w (history s) in
  let rc := execCommand w (history s) (compileCmd projectInfo) (Cwd cwd) in
  compile w projectInfo s =
  (if 0 <? exitCode rc
   then Throw (compileOutput (compileCmd projectInfo) (stdout rc) (stderr rc))
   else Ok tt,
   after s [EvExec Compile (compileCmd projectInfo) (Cwd cwd)]).
Proof.
  unfold compile, bind, call, ask, emit, ret. simpl.
  destruct (0 <? _); reflexivity.
Qed.

Lemma runStaticAnalysis_run w projectInfo s :
  Js.truthy (staticAnalysis projectInfo) = true ->
  let command := Js.render (staticAnalysis projectInfo) in
  let rs := execCommand w (history s) command NoOpts in
  runStaticAnalysis w projectInfo s =
  (if 0 <? exitCode rs
   then Throw (staticAnalysisOutput projectInfo (stdout rs) (stderr rs))
   else Ok tt,
   after s [EvExec StaticAnalysis command NoOpts]).
Proof.
  intros Hsa. unfold runStaticAnalysis. rewrite Hsa. simpl.
  unfold bind, call, ask, emit, ret. simpl.
  destruct (0 <? _); reflexivity.
Qed.

Lemma runTests_run w projectInfo s :
  Js.truthy (test projectInfo) = true ->
  let command := Js.render (test projectInfo) in
  let rt := execCommand w (history s) command NoOpts in
  runTests w projectInfo s =
  (if 0 <? exitCode rt
   then Throw (testOutput command (stdout rt) (stderr rt))
   else Ok tt,
   after s [EvExec Tests command NoOpts]).
Proof.
  intros Ht. unfold runTests. rewrite Ht. simpl.
  unfold bind, call, ask, emit, ret. simpl.
  destruct (0 <? _); reflexivity.
Qed.

(** A run of the editor: it is entered, then does editor-internal calls
    only; it leaves the working file set alone; the one command it may
    execute is built from the filtered file list. *)
Lemma editFiles_run w requirements filesToEdit s :
  exists r evs,
    CodeEditor.editFilesToMeetRequirements w requirements filesToEdit s
    = (r, after s (EvEditFiles requirements filesToEdit :: evs))
    /\ forallb isEditorInternal evs = true
    /\ (forall cmd, In cmd (aiderCommands evs) ->
        exists modelArg llmHistoryFile,
          cmd = CodeEditor.aiderCommand modelArg llmHistoryFile
                  (filter CodeEditor.keepFile filesToEdit)).
Proof.
  unfold CodeEditor.editFilesToMeetRequirements.
  rewrite bind_run, emit_run, bind_run, emit_run, after_after. simpl app.
  destruct (CodeEditor.selectModel w) as [[modelArg env]|].
  - rewrite bind_run, emit_run, after_after. simpl app.
    unfold bind at 1. unfold ask at 1.
    rewrite bind_run, call_run, after_after. simpl app.
    match goal with |- context [writeFileSync w ?h ?f] =>
      destruct (writeFileSync w h f) as [message|] end.
    + eexists _, _. split; [reflexivity|]. split; [reflexivity|].
      simpl. intros cmd [].
    + rewrite bind_run, call_run, after_after. simpl app.
      match goal with |- context [0 <? ?x] => destruct (0 <? x) end;
        (eexists _, _; split; [reflexivity|]; split; [reflexivity|];
         simpl; intros cmd [<-|[]]; eauto).
  - eexists _, _. split; [reflexivity|]. split; [reflexivity|].
    simpl. intros cmd [].
Qed.

(** ** The editor's command line (C10) *)



(** ** Exit codes (C9) *)

Lemma occursIn_intro before needle behind :
  occursIn needle (before ++ needle ++ behind)%string.
Proof. exists before, behind. reflexivity. Qed.

Lemma append_assoc (a b c : string) : ((a ++ b) ++ c = a ++ (b ++ c))%string.
Proof. induction a; simpl; congruence. Qed.

Lemma compileOutput_carries command out err :
  occursIn out (compileOutput command out err)
  /\ occursIn err (compileOutput command out err).
Proof.
  unfold compileOutput. split.
  - repeat rewrite <- (append_assoc _ _ (out ++ _)).
    apply occursIn_intro.
  - repeat rewrite <- (append_assoc _ _ (err ++ _)).
    apply occursIn_intro.
Qed.

Lemma staticAnalysisOutput_carries projectInfo out err :
  occursIn out (staticAnalysisOutput projectInfo out err)
  /\ occursIn err (staticAnalysisOutput projectInfo out err).
Proof.
  unfold staticAnalysisOutput. split.
  - repeat rewrite <- (append_assoc _ _ (out ++ _)).
    apply occursIn_intro.
  - repeat rewrite <- (append_assoc _ _ (err ++ _)).
    apply occursIn_intro.
Qed.

Lemma testOutput_carries command out err :
  occursIn out (testOutput command out err)
  /\ occursIn err (testOutput command out err).
Proof.
  unfold testOutput. split.
  - repeat rewrite <- (append_assoc _ _ (out ++ _)).
    apply occursIn_intro.
  - repeat rewrite <- (append_assoc _ _ (err ++ _)).
    apply occursIn_intro.
Qed.

(** C9, as amended.  The compile, static-analysis and test primitives throw
    exactly when the exit code of the executed command is greater than zero,
    and the error then carries the captured stdout and stderr; on every
    other exit code (zero, or negative) they return normally.  For exit
    codes that are not negative this is: exactly when the exit code is not
    zero.  A primitive whose command is not configured returns without
    executing anything. *)
Theorem primitives_throw_iff_exit_code_positive w projectInfo s :
  let rc := execCommand w (history s) (compileCmd projectInfo)
              (Cwd (getWorkingDirectory w (history s))) in
  let rs := execCommand w (history s) (Js.render (staticAnalysis projectInfo)) NoOpts in
  let rt := execCommand w (history s) (Js.render (test projectInfo)) NoOpts in
  throwsOnPositiveExit (compile w projectInfo) s rc
  /\ (if Js.truthy (staticAnalysis projectInfo)
      then throwsOnPositiveExit (runStaticAnalysis w projectInfo) s rs
      else runStaticAnalysis w projectInfo s = (Ok tt, s))
  /\ (if Js.truthy (test projectInfo)
      then throwsOnPositiveExit (runTests w projectInfo) s rt
      else runTests w projectInfo s = (Ok tt, s))
  /\ (forall r : ExecResult,
        (0 <? exitCode r) = negb (exitCode r =? 0) \/ exitCode r < 0).
Proof.
  intros rc rs rt. repeat split.
  - rewrite compile_run. simpl. fold rc. destruct (0 <? exitCode rc); reflexivity.
  - rewrite compile_run in H. simpl in H. fold rc in H.
    destruct (0 <? exitCode rc); inversion H. apply compileOutput_carries.
  - rewrite compile_run in H. simpl in H. fold rc in H.
    destruct (0 <? exitCode rc); inversion H. apply compileOutput_carries.
  - destruct (Js.truthy (staticAnalysis projectInfo)) eqn:Hsa.
    + split.
      * rewrite (runStaticAnalysis_run _ _ _ Hsa). simpl. fold rs.
        destruct (0 <? exitCode rs); reflexivity.
      * intros message H. rewrite (runStaticAnalysis_run _ _ _ Hsa) in H.
        simpl in H. fold rs in H.
        destruct (0 <? exitCode rs); inversion H.
        apply staticAnalysisOutput_carries.
    + unfold runStaticAnalysis. rewrite Hsa. reflexivity.
  - destruct (Js.truthy (test projectInfo)) eqn:Ht.
    + split.
      * rewrite (runTests_run _ _ _ Ht). simpl. fold rt.
        destruct (0 <? exitCode rt); reflexivity.
      * intros message H. rewrite (runTests_run _ _ _ Ht) in H.
        simpl in H. fold rt in H.
        destruct (0 <? exitCode rt); inversion H.
        apply testOutput_carries.
    + unfold runTests. rewrite Ht. reflexivity.
  - intros r. destruct (Z.ltb_spec 0 (exitCode r)); destruct (Z.eqb_spec (exitCode r) 0);
      simpl; try lia; auto.
Qed.

(** C9 as stated fails: the compile command ends with exit code -1, which is
    not zero, and [compile] returns normally. *)
Lemma negative_exit_code_is_not_raised :
  let w := Scenario.world [Scenario.project] Scenario.execNegative in
  let rc := execCommand w (history initialState) (compileCmd Scenario.project)
              (Cwd (getWorkingDirectory w (history initialState))) in
  exitCode rc <> 0
  /\ fst (compile w Scenario.project initialState) = Ok tt.
Proof. split; [discriminate | reflexivity]. Qed.

(** ** Project detection (C8) *)

(** C8.  Called without a [ProjectInfo], when detection returns a sequence
    whose length is not 1, the workflow throws; the detection call is the
    only thing that happened: no file selection, edit, compile or commit. *)
Theorem ambiguous_detection_is_fatal w requirements :
  List.length (detectProjectInfo w []) <> 1%nat ->
  runCodeEditWorkflow w requirements None initialState
  = (Throw "projectInfo array must have one item",
     {| history := [EvDetectProjectInfo]; initialSelectedFiles := [] |}).
Proof.
  intros Hlen.
  unfold runCodeEditWorkflow, editCompileStage, resolveProjectInfo.
  unfold bind, call, ask, emit, ret, throw. simpl.
  destruct (detectProjectInfo w []) as [|info [|info' rest]]; simpl in *;
    try reflexivity.
  contradiction Hlen. reflexivity.
Qed.

Lemma ambiguous_detection_is_fatal_witness :
  runCodeEditWorkflow
    (Scenario.world [Scenario.project; Scenario.lintedProject] Scenario.execOk)
    "req" None initialState
  = (Throw "projectInfo array must have one item",
     {| history := [EvDetectProjectInfo]; initialSelectedFiles := [] |}).
Proof.
  apply (ambiguous_detection_is_fatal
           (Scenario.world [Scenario.project; Scenario.lintedProject] Scenario.execOk)
           "req").
  simpl. lia.
Defined.

(** ** The edit-compile loop *)

(** The first iteration: [errorAnalysis] is still [null] when line 76 reads
    its [installPackages], so the [try] block ends there, before any call. *)
Lemma editCompileTry_null w i implementationRequirements projectInfo output s :
  editCompileTry w i implementationRequirements projectInfo None output s
  = (Throw (nullPropertyError "installPackages"), s).
Proof. reflexivity. Qed.

Lemma installs_run (projectInfo : ProjectInfo) packages s :
  exists installs,
    forEach packages (fun packageName =>
      if languageTools projectInfo
      then emit (EvInstallPackage packageName)
      else ret tt) s
    = (Ok tt, after s installs)
    /\ forallb isInstallPackage installs = true.
Proof.
  revert s. induction packages as [|p packages IH]; intros s; simpl.
  - exists []. rewrite after_nil. split; reflexivity.
  - rewrite bind_run. destruct (languageTools projectInfo).
    + rewrite emit_run. destruct (IH (after s [EvInstallPackage p])) as (installs & -> & Hall).
      exists (EvInstallPackage p :: installs). rewrite after_after. split; [reflexivity|exact Hall].
    + unfold ret at 1. destruct (IH s) as (installs & -> & Hall).
      exists installs. split; [reflexivity|exact Hall].
Qed.

(** The text handed to the editor on the second iteration. *)
Lemma retry_requirements_eq implementationRequirements message :
  (implementationRequirements ++ Js.nl
   ++ "Immediate task: Fix the following compile errors:" ++ Js.nl
   ++ Js.render (Some message))%string
  = (implementationRequirements ++ Js.nl
     ++ "Immediate task: Fix the following compile errors:" ++ Js.nl
     ++ message)%string.
Proof. reflexivity. Qed.

(** A later iteration, entered with a diagnosis: packages are installed,
    the editor is entered with the working files followed by the files the
    diagnosis names, and there is no compile before the editor.  Either the
    editor throws, or the files of the head commit, as version control
    reports them once the editor has returned, are pushed on the working
    file set and the compile runs. *)
Lemma editCompileTry_retry w i implementationRequirements projectInfo a0 message s :
  let files0 := initialSelectedFiles s in
  let requirements :=
    (implementationRequirements ++ Js.nl
     ++ "Immediate task: Fix the following compile errors:" ++ Js.nl ++ message)%string in
  let files1 :=
    match additionalFiles a0 with Some more => files0 ++ more | None => files0 end in
  let round := editCompileTry w (S i) implementationRequirements projectInfo
                 (Some a0) (Some message) s in
  exists installs internal,
    forallb isInstallPackage installs = true
    /\ forallb isEditorInternal internal = true
    /\ let evs := installs ++ EvEditFiles requirements files1 :: internal in
       let h := history s ++ evs in
       let added := getFilesAddedInHeadCommit w h in
       let cwd := getWorkingDirectory w h in
       let rc := execCommand w h (compileCmd projectInfo) (Cwd cwd) in
       ((exists thrown, round = (Throw thrown, after s evs))
        \/ round = (if 0 <? exitCode rc
                    then Throw (compileOutput (compileCmd projectInfo)
                                  (stdout rc) (stderr rc))
                    else Ok tt,
                    {| history := history s ++ evs
                         ++ [EvExec Compile (compileCmd projectInfo) (Cwd cwd)];
                       initialSelectedFiles := files0 ++ added |})).
Proof.
  intros files0 requirements files1 round.
  assert (Hinst : exists installs,
    match installPackages a0 with
    | Some packages =>
        forEach packages (fun packageName =>
          if languageTools projectInfo
          then emit (EvInstallPackage packageName) else ret tt)
    | None => ret tt
    end s = (Ok tt, after s installs)
    /\ forallb isInstallPackage installs = true).
  { destruct (installPackages a0) as [packages|].
    - apply installs_run.
    - exists []. rewrite after_nil. split; reflexivity. }
  destruct Hinst as (installs & Hrun & Hinstalls).
  assert (Hfiles : match a0 with
                   | {| additionalFiles := Some more |} => files0 ++ more
                   | _ => files0
                   end = files1).
  { unfold files1. destruct a0 as [[more|] pk]; reflexivity. }
  destruct (editFiles_run w requirements files1 (after s installs))
    as (r & internal & Hedit & Hinternal & _).
  exists installs, internal. split; [exact Hinstalls|]. split; [exact Hinternal|].
  cbv zeta.
  pose proof (eq_refl round) as HL. unfold round at 1 in HL.
  unfold editCompileTry in HL.
  rewrite bind_run in HL. unfold getSelected at 1 in HL. fold files0 in HL.
  rewrite Hfiles in HL.
  rewrite bind_run in HL. rewrite Hrun in HL. cbv beta iota in HL.
  rewrite bind_run in HL. change (Nat.eqb (S i) 0) with false in HL.
  cbv beta iota in HL.
  unfold ret at 1 in HL. cbv beta iota in HL.
  change (Js.render (Some message)) with message in HL. fold requirements in HL.
  rewrite bind_run in HL. rewrite Hedit in HL. cbv beta iota in HL.
  rewrite after_after in HL.
  destruct r as [[]|thrown].
  - right. rewrite bind_run in HL. unfold ask at 1 in HL. cbv beta iota in HL.
    rewrite bind_run in HL. unfold pushSelected at 1 in HL. cbv beta iota in HL.
    rewrite compile_run in HL. cbv zeta in HL.
    cbn [history initialSelectedFiles after] in HL. fold files0 in HL.
    unfold after in HL. cbn [history initialSelectedFiles] in HL.
    rewrite <- HL. repeat rewrite <- app_assoc. reflexivity.
  - left. exists thrown. rewrite <- HL. reflexivity.
Qed.

(** All runs of the edit-compile loop.  The first iteration only reaches
    the analyzer; the second installs packages and enters the editor; then
    either the editor throws, or the compile fails, or the compile
    succeeds.  The files of the head commit are read at the history [h]
    reached when the editor has returned, and the compile runs there. *)
Lemma editCompileLoop_run w implementationRequirements projectInfo s :
  let npe := nullPropertyError "installPackages" in
  let files0 := initialSelectedFiles s in
  let a0 := analyzeCompileErrors w (history s) npe files0 in
  let requirements :=
    (implementationRequirements ++ Js.nl
     ++ "Immediate task: Fix the following compile errors:" ++ Js.nl ++ npe)%string in
  let files1 :=
    match additionalFiles a0 with Some more => files0 ++ more | None => files0 end in
  let loop := editCompileLoop w MAX_ATTEMPTS 0 implementationRequirements
                projectInfo None None s in
  exists installs internal,
    forallb isInstallPackage installs = true
    /\ forallb isEditorInternal internal = true
    /\ let evs := EvAnalyzeCompileErrors npe files0
                  :: installs ++ EvEditFiles requirements files1 :: internal in
       let h := history s ++ evs in
       let added := getFilesAddedInHeadCommit w h in
       let cwd := getWorkingDirectory w h in
       let rc := execCommand w h (compileCmd projectInfo) (Cwd cwd) in
       let compiled := EvExec Compile (compileCmd projectInfo) (Cwd cwd) in
       let message := compileOutput (compileCmd projectInfo) (stdout rc) (stderr rc) in
       ((exists thrown,
           loop = (Ok (Some (analyzeCompileErrors w h thrown files0), Some thrown),
                   after s (evs ++ [EvAnalyzeCompileErrors thrown files0])))
        \/ ((0 <? exitCode rc) = true
            /\ loop = (Ok (Some (analyzeCompileErrors w (h ++ [compiled]) message
                                   (files0 ++ added)),
                           Some message),
                       {| history := history s ++ evs
                            ++ [compiled;
                                EvAnalyzeCompileErrors message (files0 ++ added)];
                          initialSelectedFiles := files0 ++ added |}))
        \/ ((0 <? exitCode rc) = false
            /\ loop = (Ok (None, Some npe),
                       {| history := history s ++ evs ++ [compiled];
                          initialSelectedFiles := files0 ++ added |}))).
Proof.
  intros npe files0 a0 requirements files1 loop.
  pose proof (eq_refl loop) as HL. unfold loop at 1 in HL.
  unfold MAX_ATTEMPTS in HL. simpl editCompileLoop in HL.
  rewrite bind_run in HL. unfold attempt at 1 in HL.
  rewrite editCompileTry_null in HL. cbv beta iota in HL.
  rewrite bind_run in HL. unfold analyze at 1 in HL.
  rewrite bind_run in HL. unfold getSelected at 1 in HL. cbv beta iota in HL.
  rewrite call_run in HL. cbv beta iota in HL.
  fold npe in HL. fold files0 in HL. fold a0 in HL.
  rewrite bind_run in HL. unfold attempt at 1 in HL.
  destruct (editCompileTry_retry w 0 implementationRequirements projectInfo a0 npe
              (after s [EvAnalyzeCompileErrors npe files0]))
    as (installs & internal & Hinstalls & Hinternal & Hcases).
  cbv zeta in Hcases. unfold after in Hcases.
  cbn [history initialSelectedFiles] in Hcases.
  repeat rewrite <- app_assoc in Hcases. cbn [app] in Hcases.
  fold files0 in Hcases. fold files1 in Hcases. fold requirements in Hcases.
  unfold after in HL. fold files0 in HL.
  exists installs, internal. split; [exact Hinstalls|]. split; [exact Hinternal|].
  cbv zeta.
  destruct Hcases as [(thrown & Hr) | Hr]; rewrite Hr in HL;
    cbv beta iota in HL.
  - left. unfold analyze in HL. rewrite bind_run in HL.
    rewrite bind_run in HL. unfold getSelected at 1 in HL. cbv beta iota in HL.
    rewrite call_run in HL. cbv beta iota in HL. unfold ret in HL.
    exists thrown. rewrite <- HL. unfold after.
    cbn [history initialSelectedFiles]. fold files0.
    norm_app. reflexivity.
  - right.
    match type of HL with context [0 <? ?x] => destruct (0 <? x) end.
    + left. split; [reflexivity|].
      unfold analyze in HL. rewrite bind_run in HL.
      rewrite bind_run in HL. unfold getSelected at 1 in HL. cbv beta iota in HL.
      rewrite call_run in HL. cbv beta iota in HL. unfold ret in HL.
      rewrite <- HL. unfold after.
      cbn [history initialSelectedFiles].
      norm_app. reflexivity.
    + right. split; [reflexivity|].
      rewrite <- HL. unfold ret. norm_app. reflexivity.
Qed.

(** The same runs, without the place at which the world is asked. *)
Lemma editCompileLoop_shape w implementationRequirements projectInfo s :
  let npe := nullPropertyError "installPackages" in
  let files0 := initialSelectedFiles s in
  let a0 := analyzeCompileErrors w (history s) npe files0 in
  let requirements :=
    (implementationRequirements ++ Js.nl
     ++ "Immediate task: Fix the following compile errors:" ++ Js.nl ++ npe)%string in
  let files1 :=
    match additionalFiles a0 with Some more => files0 ++ more | None => files0 end in
  let loop := editCompileLoop w MAX_ATTEMPTS 0 implementationRequirements
                projectInfo None None s in
  exists installs internal,
    forallb isInstallPackage installs = true
    /\ forallb isEditorInternal internal = true
    /\ let evs := EvAnalyzeCompileErrors npe files0
                  :: installs ++ EvEditFiles requirements files1 :: internal in
       ((exists message a,
           loop = (Ok (Some a, Some message),
                   after s (evs ++ [EvAnalyzeCompileErrors message files0])))
        \/ (exists h cwd,
              let added := getFilesAddedInHeadCommit w h in
              let rc := execCommand w h (compileCmd projectInfo) (Cwd cwd) in
              let compiled := EvExec Compile (compileCmd projectInfo) (Cwd cwd) in
              ((0 <? exitCode rc) = true
               /\ exists message a,
                    loop = (Ok (Some a, Some message),
                            {| history := history s ++ evs
                                 ++ [compiled;
                                     EvAnalyzeCompileErrors message (files0 ++ added)];
                               initialSelectedFiles := files0 ++ added |}))
              \/ ((0 <? exitCode rc) = false
                  /\ loop = (Ok (None, Some npe),
                             {| history := history s ++ evs ++ [compiled];
                                initialSelectedFiles := files0 ++ added |})))).
Proof.
  intros npe files0 a0 requirements files1 loop.
  destruct (editCompileLoop_run w implementationRequirements projectInfo s)
    as (installs & internal & Hinstalls & Hinternal & Hloop).
  exists installs, internal. split; [exact Hinstalls|]. split; [exact Hinternal|].
  cbv zeta in Hloop |- *.
  destruct Hloop as [(thrown & Hloop) | [(Hexit & Hloop) | (Hexit & Hloop)]].
  - left. eexists _, _. exact Hloop.
  - right. eexists _, _. left. split; [exact Hexit|]. eexists _, _. exact Hloop.
  - right. eexists _, _. right. split; [exact Hexit|]. exact Hloop.
Qed.

(** ** The first part of the workflow *)

Lemma resolveProjectInfo_run w projectInfo s :
  (projectInfo = None
   /\ List.length (detectProjectInfo w (history s)) <> 1%nat
   /\ resolveProjectInfo w projectInfo s
      = (Throw "projectInfo array must have one item", after s [EvDetectProjectInfo]))
  \/ (exists info pre,
        ((projectInfo = Some info /\ pre = [])
         \/ (projectInfo = None /\ pre = [EvDetectProjectInfo]
             /\ detectProjectInfo w (history s) = [info]))
        /\ resolveProjectInfo w projectInfo s = (Ok info, after s pre)).
Proof.
  destruct projectInfo as [info|]; simpl.
  - right. exists info, []. rewrite after_nil. split; [left; split|]; reflexivity.
  - rewrite bind_run, call_run.
    destruct (detectProjectInfo w (history s)) as [|info [|info' rest]] eqn:Hd.
    + left. repeat split. simpl. lia.
    + right. exists info, [EvDetectProjectInfo]. split; [right|]; repeat split.
    + left. repeat split. simpl. lia.
Qed.

(** The stage up to the edit-compile loop: either detection is ambiguous,
    or the loop starts with the working file set equal to the selected
    primary files followed by the selected secondary files. *)
Lemma editCompileStage_run w requirements projectInfo s :
  (projectInfo = None
   /\ List.length (detectProjectInfo w (history s)) <> 1%nat
   /\ editCompileStage w requirements projectInfo s
      = (Throw "projectInfo array must have one item", after s [EvDetectProjectInfo]))
  \/ (exists info pre h prompt implementationRequirements,
        ((projectInfo = Some info /\ pre = [])
         \/ (projectInfo = None /\ pre = [EvDetectProjectInfo]
             /\ detectProjectInfo w (history s) = [info]))
        /\ let response := selectFilesToEdit w h requirements info in
           let s0 :=
             {| history := history s ++ pre
                  ++ [EvSetWorkingDirectory (baseDir info);
                      EvSelectFilesToEdit requirements;
                      EvGenerateText prompt];
                initialSelectedFiles :=
                  map path (primaryFiles response)
                  ++ map path (secondaryFiles response) |} in
           editCompileStage w requirements projectInfo s
           = let (r, sf) := editCompileLoop w MAX_ATTEMPTS 0
                              implementationRequirements info None None s0 in
             (match r with
              | Ok l =>
                  Ok {| gateProject := info;
                        gateProjectPath :=
                          pathJoin w (getWorkingDirectory w (history s ++ pre))
                            (baseDir info);
                        gateAnalysis := fst l; gateOutput := snd l |}
              | Throw e => Throw e
              end, sf)).
Proof.
  unfold editCompileStage. rewrite bind_run.
  destruct (resolveProjectInfo_run w projectInfo s)
    as [(Hnone & Hlen & ->) | (info & pre & Hpre & ->)].
  - left. repeat split; assumption.
  - right. cbv beta iota.
    rewrite bind_run. unfold ask at 1. cbv beta iota.
    rewrite bind_run, emit_run. cbv beta iota.
    rewrite bind_run, call_run. cbv beta iota.
    rewrite bind_run. unfold setSelected at 1. cbv beta iota.
    rewrite bind_run. unfold getSelected at 1. cbv beta iota.
    rewrite bind_run. unfold ask at 1. cbv beta iota.
    rewrite bind_run, call_run. cbv beta iota.
    rewrite bind_run.
    unfold after. cbn [history initialSelectedFiles]. norm_app.
    match goal with
    | |- context [editCompileLoop w _ _ ?r _ None None
                    {| history := _ ++ _ ++ [_; _; EvGenerateText ?prompt];
                       initialSelectedFiles :=
                         map path (primaryFiles (selectFilesToEdit w ?h _ _)) ++ _ |}] =>
        exists info, pre, h, prompt, r
    end.
    split; [exact Hpre|]. cbv zeta.
    match goal with |- context [editCompileLoop w ?n ?i ?r ?p None None ?st] =>
      destruct (editCompileLoop w n i r p None None st) as [[l|e] sf] end;
      reflexivity.
Qed.

(** The same stage with every answer of the world named: the selection is
    made at the history [setup], the implementation specification is
    generated from the selected files, and the loop starts in [s0]. *)
Lemma editCompileStage_resolved w requirements projectInfo s info pre :
  resolveProjectInfo w projectInfo s = (Ok info, after s pre) ->
  let setup := history s ++ pre ++ [EvSetWorkingDirectory (baseDir info)] in
  let response := selectFilesToEdit w setup requirements info in
  let selected := map path (primaryFiles response)
                  ++ map path (secondaryFiles response) in
  let selecting := setup ++ [EvSelectFilesToEdit requirements] in
  let prompt :=
    implementationPrompt (getMultipleFileContentsAsXml w selecting selected)
      requirements in
  let s0 := {| history := selecting ++ [EvGenerateText prompt];
               initialSelectedFiles := selected |} in
  editCompileStage w requirements projectInfo s
  = let (r, sf) := editCompileLoop w MAX_ATTEMPTS 0
                     (generateText w selecting prompt) info None None s0 in
    (match r with
     | Ok l =>
         Ok {| gateProject := info;
               gateProjectPath :=
                 pathJoin w (getWorkingDirectory w (history s ++ pre)) (baseDir info);
               gateAnalysis := fst l; gateOutput := snd l |}
     | Throw e => Throw e
     end, sf).
Proof.
  intros Hres setup response selected selecting prompt s0.
  unfold editCompileStage. rewrite bind_run, Hres. cbv beta iota.
  rewrite bind_run. unfold ask at 1. cbv beta iota.
  rewrite bind_run, emit_run. cbv beta iota.
  rewrite bind_run, call_run. cbv beta iota.
  rewrite bind_run. unfold setSelected at 1. cbv beta iota.
  rewrite bind_run. unfold getSelected at 1. cbv beta iota.
  rewrite bind_run. unfold ask at 1. cbv beta iota.
  rewrite bind_run, call_run. cbv beta iota.
  rewrite bind_run.
  unfold after. cbn [history initialSelectedFiles].
  subst s0 prompt selecting selected response setup.
  rewrite <- !app_assoc.
  match goal with |- context [editCompileLoop w ?n ?i ?r ?p None None ?st] =>
    destruct (editCompileLoop w n i r p None None st) as [[l|e] sf] end;
    reflexivity.
Qed.

(** ** The static-analysis loop *)

(** All runs of the static-analysis loop: the first run passes; or it fails
    and the repairing editor throws, which ends the loop and the workflow;
    or it fails, the editor returns and a second round runs.  The texts
    sent to the filename extraction and to the editor are built from
    [compileErrorOutput], the variable of the edit-compile loop. *)
Lemma staticAnalysisLoop_shape w projectInfo compileErrorOutput s :
  Js.truthy (staticAnalysis projectInfo) = true ->
  let command := Js.render (staticAnalysis projectInfo) in
  let run := EvExec StaticAnalysis command NoOpts in
  let commit := EvCommit commitMessage in
  let first := execCommand w (history s) command NoOpts in
  let summary :=
    (Js.render compileErrorOutput ++ Js.nl ++ Js.nl
     ++ "Extract the filenames from the compile errors.")%string in
  let requirements :=
    ("Static analysis command: " ++ command ++ Js.nl
     ++ Js.render compileErrorOutput ++ Js.nl
     ++ "Fix these static analysis errors")%string in
  let loop := staticAnalysisLoop w STATIC_ANALYSIS_MAX_ATTEMPTS 0 projectInfo
                compileErrorOutput s in
  ((0 <? exitCode first) = false /\ loop = (Ok tt, after s [run; commit]))
  \/ ((0 <? exitCode first) = true
      /\ exists filenames files internal,
           let prompt :=
             buildPrompt w
               ("<project_files>" ++ Js.nl ++ Js.join Js.nl filenames ++ Js.nl
                ++ "</project_files>")%string
               summary extractFilenamesAction in
           let repair :=
             [run; commit; EvGenerateTextAsJson prompt;
              EvEditFiles requirements files] ++ internal in
           forallb isEditorInternal internal = true
           /\ ((exists thrown, loop = (Throw thrown, after s repair))
               \/ loop = (Ok tt, after s (repair ++ [run; commit])))).
Proof.
  intros Hsa command run commit first summary requirements loop.
  pose proof (eq_refl loop) as HL. unfold loop at 1 in HL.
  unfold STATIC_ANALYSIS_MAX_ATTEMPTS in HL. cbn [staticAnalysisLoop] in HL.
  rewrite bind_run in HL. unfold attempt at 1 in HL.
  rewrite bind_run in HL. rewrite (runStaticAnalysis_run _ _ _ Hsa) in HL.
  cbv zeta in HL. fold command in HL. fold first in HL. fold run in HL.
  destruct (0 <? exitCode first) eqn:Hexit; cbv beta iota in HL.
  - right. split; [reflexivity|].
    rewrite bind_run, emit_run in HL. cbv beta iota in HL. fold commit in HL.
    change (Nat.eqb 0 (STATIC_ANALYSIS_MAX_ATTEMPTS - 1)) with false in HL. cbv beta iota in HL.
    rewrite bind_run in HL. rewrite bind_run in HL.
    unfold extractFilenames at 1 in HL.
    rewrite bind_run in HL. unfold ask at 1 in HL. cbv beta iota in HL.
    rewrite call_run in HL. cbv beta iota in HL.
    fold summary in HL. fold requirements in HL.
    match type of HL with
    | context [CodeEditor.editFilesToMeetRequirements w requirements ?files ?st] =>
        destruct (editFiles_run w requirements files st)
          as (r & internal & Hedit & Hinternal & _);
        rewrite Hedit in HL; clear Hedit
    end.
    cbv beta iota in HL. repeat rewrite after_after in HL. cbn [app] in HL.
    match type of HL with
    | context [EvGenerateTextAsJson
                 (buildPrompt w (_ ++ _ ++ Js.join Js.nl ?filenames ++ _) _ _)
               :: EvEditFiles requirements ?files :: _] =>
        exists filenames, files, internal
    end.
    cbv zeta. split; [exact Hinternal|].
    destruct r as [[]|thrown].
    + right.
      rewrite bind_run in HL. unfold attempt at 1 in HL.
      rewrite bind_run in HL. rewrite (runStaticAnalysis_run _ _ _ Hsa) in HL.
      cbv zeta in HL. fold command in HL. fold run in HL.
      match type of HL with context [0 <? ?x] => destruct (0 <? x) end;
        cbv beta iota in HL.
      * rewrite bind_run, emit_run in HL. cbv beta iota in HL.
        change (Nat.eqb 1 (STATIC_ANALYSIS_MAX_ATTEMPTS - 1)) with true in HL. cbv beta iota in HL.
        unfold ret in HL. rewrite <- HL. repeat rewrite after_after.
        norm_app. reflexivity.
      * rewrite emit_run in HL. cbv beta iota in HL.
        unfold ret in HL. rewrite <- HL. repeat rewrite after_after.
        norm_app. reflexivity.
    + left. exists thrown. rewrite <- HL. reflexivity.
  - left. split; [reflexivity|].
    rewrite emit_run in HL. cbv beta iota in HL. unfold ret in HL.
    rewrite <- HL. rewrite after_after. reflexivity.
Qed.

(** ** The test loop *)

(** A round of the test loop: the editor is entered with the working file
    set as it is; then the round stops at the editor, or at the compile, or
    after the tests. *)
Lemma testTry_shape w requirements projectInfo s :
  let entered := EvEditFiles (testRequirements requirements) (initialSelectedFiles s) in
  let tested := EvExec Tests (Js.render (test projectInfo)) NoOpts in
  exists r internal tail,
    testTry w requirements projectInfo s = (r, after s (entered :: internal ++ tail))
    /\ forallb isEditorInternal internal = true
    /\ ((tail = [] /\ threw r = true)
        \/ (exists cwd,
              tail = [EvExec Compile (compileCmd projectInfo) (Cwd cwd)]
              /\ (threw r = true \/ Js.truthy (test projectInfo) = false))
        \/ (exists cwd,
              tail = [EvExec Compile (compileCmd projectInfo) (Cwd cwd); tested]
              /\ Js.truthy (test projectInfo) = true)).
Proof.
  intros entered tested.
  pose proof (eq_refl (testTry w requirements projectInfo s)) as HL.
  unfold testTry at 1 in HL.
  rewrite bind_run in HL. unfold getSelected at 1 in HL. cbv beta iota in HL.
  rewrite bind_run in HL.
  destruct (editFiles_run w (testRequirements requirements) (initialSelectedFiles s) s)
    as (r & internal & Hedit & Hinternal & _).
  rewrite Hedit in HL. clear Hedit. fold entered in HL.
  destruct r as [[]|thrown]; cbv beta iota in HL.
  - rewrite bind_run, compile_run in HL. cbv zeta in HL.
    rewrite after_after in HL.
    match type of HL with context [0 <? ?x] => destruct (0 <? x) end;
      cbv beta iota in HL.
    + eexists _, internal, _. rewrite <- HL. split; [|split; [exact Hinternal|]].
      * rewrite app_comm_cons. reflexivity.
      * right. left. eexists. split; [reflexivity|]. left. reflexivity.
    + destruct (Js.truthy (test projectInfo)) eqn:Ht.
      * rewrite (runTests_run _ _ _ Ht) in HL. cbv zeta in HL.
        rewrite after_after in HL.
        eexists _, internal, _. rewrite <- HL. split; [|split; [exact Hinternal|]].
        -- rewrite app_comm_cons, <- app_assoc. reflexivity.
        -- right. right. eexists. split; reflexivity.
      * unfold runTests in HL. rewrite Ht in HL. cbn [negb] in HL.
        unfold ret in HL.
        eexists _, internal, _. rewrite <- HL. split; [|split; [exact Hinternal|]].
        -- rewrite app_comm_cons. reflexivity.
        -- right. left. eexists. split; [reflexivity|]. right. reflexivity.
  - exists (Throw thrown), internal, []. rewrite <- HL. rewrite app_nil_r.
    split; [reflexivity|]. split; [exact Hinternal|]. left. split; reflexivity.
Qed.

(** The test loop is a first round, and when that round throws, an analysis
    and a second round, and when that one throws too, a second analysis. *)
Lemma testLoop_run w requirements projectInfo projectPath s :
  Js.truthy (test projectInfo) = true ->
  let s1 := after s [EvTestLoop] in
  testLoop w requirements projectInfo projectPath s =
  match testTry w requirements projectInfo s1 with
  | (Ok _, s2) => (Ok None, s2)
  | (Throw output1, s2) =>
      let files := initialSelectedFiles s2 in
      let s3 := after s2 [EvAnalyzeCompileErrors output1 files] in
      match testTry w requirements projectInfo s3 with
      | (Ok _, s4) => (Ok None, s4)
      | (Throw output2, s4) =>
          (Ok (Some (analyzeCompileErrors w (history s4) output2
                       (initialSelectedFiles s4))),
           after s4 [EvAnalyzeCompileErrors output2 (initialSelectedFiles s4)])
      end
  end.
Proof.
  intros Ht s1. unfold testLoop. rewrite bind_run, emit_run. cbv beta iota.
  rewrite Ht. cbn [negb]. unfold MAX_ATTEMPTS. cbn [testRounds].
  rewrite bind_run. unfold attempt at 1. fold s1.
  destruct (testTry w requirements projectInfo s1) as [[[]|output1] s2];
    cbv beta iota; [reflexivity|].
  rewrite bind_run. unfold analyze at 1. rewrite bind_run.
  unfold getSelected at 1. cbv beta iota. rewrite call_run. cbv beta iota zeta.
  rewrite bind_run. unfold attempt at 1.
  destruct (testTry w requirements projectInfo _) as [[[]|output2] s4];
    cbv beta iota; [reflexivity|].
  rewrite bind_run. unfold analyze at 1. rewrite bind_run.
  unfold getSelected at 1. cbv beta iota. rewrite call_run. reflexivity.
Qed.

(** ** Counting events *)

Lemma count_cons p e h :
  count p (e :: h) = ((if p e then 1 else 0) + count p h)%nat.
Proof. unfold count. simpl. destruct (p e); reflexivity. Qed.

Lemma count_nil p : count p [] = O.
Proof. reflexivity. Qed.

Ltac by_event H :=
  let e := fresh "e" in
  intros e H; destruct e; try discriminate H; try reflexivity;
  match goal with b : Primitive |- _ => destruct b end;
  try discriminate H; reflexivity.

Lemma count_installs p installs :
  forallb isInstallPackage installs = true ->
  (forall name, p (EvInstallPackage name) = false) ->
  count p installs = O.
Proof.
  intros Hall Hp. apply (count_none isInstallPackage); [exact Hall|].
  intros e He. destruct e; try discriminate He. apply Hp.
Qed.

Lemma count_internal p internal :
  forallb isEditorInternal internal = true ->
  (forall e, isEditorInternal e = true -> p e = false) ->
  count p internal = O.
Proof. intros Hall Hp. apply (count_none isEditorInternal); assumption. Qed.

(** Counts over a history built from known events, package installations
    and editor-internal events. *)
Ltac counts :=
  repeat first [rewrite count_app | rewrite count_cons | rewrite count_nil];
  repeat match goal with
  | H : forallb isInstallPackage ?l = true |- context [count ?p ?l] =>
      rewrite (count_installs p l H) by (intros; reflexivity)
  | H : forallb isEditorInternal ?l = true |- context [count ?p ?l] =>
      let He := fresh "He" in
      rewrite (count_internal p l H) by (by_event He)
  end;
  cbn [isExecBy isCommit isEditFiles isTestLoop Nat.add];
  try reflexivity; try lia.

(** The runs of the first part of the workflow, from the initial state. *)
Ltac stage_cases w requirements projectInfo :=
  let Hstage := fresh "Hstage" in
  let Hloop := fresh "Hloop" in
  destruct (editCompileStage_run w requirements projectInfo initialState)
    as [(Hnone & Hlen & Hstage)
       | (info & pre & h & prompt & impl & Hpre & Hstage)];
  [ | cbv zeta in Hstage;
      match type of Hstage with
      | context [editCompileLoop w _ _ _ _ None None ?s0] =>
          destruct (editCompileLoop_shape w impl info s0)
            as (installs & internal & Hinstalls & Hinternal & Hloop);
          cbv zeta in Hloop;
          destruct Hloop as [(thrown & a & Hloop)
                            | (h' & cwd & [(Hexit & thrown & a & Hloop)
                                          | (Hexit & Hloop)])];
          rewrite Hloop in Hstage; clear Hloop;
          unfold after in Hstage;
          cbn [fst snd history initialSelectedFiles initialState app] in Hstage
      end ].

(** ** The compile gate (C1) *)

(** C1.  In every run in which the edit-compile loop ends with its diagnosis
    still set, the workflow ends there: it returns in the very state the loop
    left, and the history of the run holds no static-analysis run, no commit,
    no entry into the test loop and no test run. *)
Theorem compile_gate_stops_workflow w requirements projectInfo g s :
  editCompileStage w requirements projectInfo initialState = (Ok g, s) ->
  gateAnalysis g <> None ->
  runCodeEditWorkflow w requirements projectInfo initialState = (Ok tt, s)
  /\ count (isExecBy StaticAnalysis) (history s) = O
  /\ count isCommit (history s) = O
  /\ count isTestLoop (history s) = O
  /\ count (isExecBy Tests) (history s) = O.
Proof.
  intros Hrun Hset. split.
  - unfold runCodeEditWorkflow. rewrite bind_run, Hrun.
    unfold afterEditCompile. destruct (gateAnalysis g); [reflexivity|].
    contradiction Hset. reflexivity.
  - stage_cases w requirements projectInfo; rewrite Hstage in Hrun;
      inversion Hrun; subst g s; cbn [history gateAnalysis] in *;
      try (contradiction Hset; reflexivity);
      (destruct Hpre as [(_ & ->) | (_ & -> & _)]; repeat split; counts).
Qed.

Lemma compile_gate_stops_workflow_witness :
  let w := Scenario.world [Scenario.project] Scenario.execCompileFails in
  let run := editCompileStage w "req" None initialState in
  runCodeEditWorkflow w "req" None initialState = (Ok tt, snd run)
  /\ count (isExecBy StaticAnalysis) (history (snd run)) = O
  /\ count isCommit (history (snd run)) = O
  /\ count isTestLoop (history (snd run)) = O
  /\ count (isExecBy Tests) (history (snd run)) = O.
Proof.
  intros w run.
  apply (compile_gate_stops_workflow w "req" None
           {| gateProject := Scenario.project;
              gateProjectPath := "/repo/.";
              gateAnalysis := Some Scenario.diagnosis;
              gateOutput :=
                Some (compileOutput "build" "" "error TS1005") |}
           (snd run)).
  - vm_compute. reflexivity.
  - simpl. discriminate.
Defined.

(** ** The later stages only add to the history *)

Lemma staticAnalysisStage_after w projectInfo compileErrorOutput s :
  exists r evs,
    staticAnalysisStage w projectInfo compileErrorOutput s = (r, after s evs).
Proof.
  unfold staticAnalysisStage.
  destruct (Js.truthy (staticAnalysis projectInfo)) eqn:Hsa.
  - destruct (staticAnalysisLoop_shape w projectInfo compileErrorOutput s Hsa)
      as [(_ & ->) | (_ & filenames & files & internal & _ & [(thrown & ->) | ->])];
      eexists _, _; reflexivity.
  - exists (Ok tt), []. rewrite after_nil. reflexivity.
Qed.

Lemma testTry_after w requirements projectInfo s :
  exists r evs, testTry w requirements projectInfo s = (r, after s evs).
Proof.
  destruct (testTry_shape w requirements projectInfo s)
    as (r & internal & tail & -> & _).
  eexists _, _. reflexivity.
Qed.

Lemma testLoop_after w requirements projectInfo projectPath s :
  exists r evs,
    testLoop w requirements projectInfo projectPath s = (r, after s evs).
Proof.
  destruct (Js.truthy (test projectInfo)) eqn:Ht.
  - rewrite (testLoop_run _ _ _ _ _ Ht). cbv zeta.
    destruct (testTry_after w requirements projectInfo (after s [EvTestLoop]))
      as (r1 & evs1 & ->).
    destruct r1 as [[]|output1].
    + rewrite after_after. eexists _, _. reflexivity.
    + destruct (testTry_after w requirements projectInfo
                  (after (after (after s [EvTestLoop]) evs1)
                     [EvAnalyzeCompileErrors output1
                        (initialSelectedFiles (after (after s [EvTestLoop]) evs1))]))
        as (r2 & evs2 & ->).
      destruct r2 as [[]|output2]; repeat rewrite after_after;
        eexists _, _; reflexivity.
  - unfold testLoop. rewrite bind_run, emit_run. cbv beta iota.
    rewrite Ht. eexists _, _. reflexivity.
Qed.

Lemma afterEditCompile_after w requirements g s :
  exists r evs, afterEditCompile w requirements g s = (r, after s evs).
Proof.
  unfold afterEditCompile. destruct (gateAnalysis g).
  - exists (Ok tt), []. rewrite after_nil. reflexivity.
  - rewrite bind_run.
    destruct (staticAnalysisStage_after w (gateProject g) (gateOutput g) s)
      as (r1 & evs1 & ->).
    destruct r1 as [[]|thrown]; [|eexists _, _; reflexivity].
    rewrite bind_run.
    destruct (testLoop_after w requirements (gateProject g) (gateProjectPath g)
                (after s evs1)) as (r2 & evs2 & ->).
    rewrite after_after. destruct r2; eexists _, _; reflexivity.
Qed.

(** ** The baseline compile (C2) *)

Lemma compilesBeforeEdit_installs installs rest :
  forallb isInstallPackage installs = true ->
  compilesBeforeEdit (installs ++ rest) = compilesBeforeEdit rest.
Proof.
  induction installs as [|e installs IH]; intros Hall; [reflexivity|].
  cbn [forallb] in Hall. apply andb_true_iff in Hall. destruct Hall as [He Hall].
  destruct e; try discriminate He. cbn. apply IH. exact Hall.
Qed.

(** C2, on the code.  The baseline compile never runs.  The loop starts
    with [errorAnalysis] equal to [null]; the first iteration throws the
    TypeError of line 76 before it reaches the compile of line 83 and
    leaves the state as it was.  In every run of the workflow, no compile
    execution precedes the first invocation of the editor. *)
Theorem baseline_compile_never_runs w requirements projectInfo :
  (forall i implementationRequirements info output s,
     editCompileTry w i implementationRequirements info None output s
     = (Throw (nullPropertyError "installPackages"), s))
  /\ compilesBeforeEdit
       (history (snd (runCodeEditWorkflow w requirements projectInfo initialState)))
     = O.
Proof.
  split; [intros; apply editCompileTry_null|].
  unfold runCodeEditWorkflow. rewrite bind_run.
  stage_cases w requirements projectInfo; rewrite Hstage; [reflexivity| | |];
    match goal with |- context [afterEditCompile w requirements ?g ?s] =>
      destruct (afterEditCompile_after w requirements g s) as (r & evs & ->)
    end;
    unfold after; cbn [snd history];
    destruct Hpre as [(_ & ->) | (_ & -> & _)]; norm_app;
    cbn [compilesBeforeEdit isExecBy Nat.add];
    rewrite (compilesBeforeEdit_installs _ _ Hinstalls); reflexivity.
Qed.

(** The run of a healthy project: one detected project, every command
    succeeds.  The analyzer is called with the TypeError before anything is
    edited or compiled, and the compile command runs once, after the edit. *)
Example healthy_project_compiles_once :
  let w := Scenario.world [Scenario.project] Scenario.execOk in
  let run := runCodeEditWorkflow w "req" None initialState in
  fst run = Ok tt
  /\ firstn 5 (history (snd run))
     = [EvDetectProjectInfo; EvSetWorkingDirectory ".";
        EvSelectFilesToEdit "req";
        EvGenerateText (implementationPrompt "<files/>" "req");
        EvAnalyzeCompileErrors (nullPropertyError "installPackages") [Some "a.ts"]]
  /\ compilesBeforeEdit (history (snd run)) = O
  /\ count (isExecBy Compile) (firstn 11 (history (snd run))) = 1%nat.
Proof.
  intros w run. repeat split; vm_compute; reflexivity.
Qed.

(** ** A compile command that fails after every edit (C3) *)

(** C3, on the code.  The edit-compile loop never makes the two editor
    invocations and three compile executions of scenario B: in every run the
    part of the workflow up to the end of the loop holds at most one
    invocation of the editor and at most one execution of the compile
    command, because its first iteration ends at the TypeError of line 76.
    In scenario B itself, where the compile command passes on the tree as it
    is found and fails after every edit, the workflow returns after one
    editor invocation and one compile execution, the baseline compile not
    among them, and without any static-analysis run, commit, test-loop entry
    or test run. *)
Theorem failing_compile_exhausts_loop_after_one_edit :
  (forall w requirements projectInfo,
     let trace :=
       history (snd (editCompileStage w requirements projectInfo initialState)) in
     (count isEditFiles trace <= 1)%nat /\ (count (isExecBy Compile) trace <= 1)%nat)
  /\ (let w := Scenario.world [Scenario.project] Scenario.execCompileFailsAfterEdit in
      let run := runCodeEditWorkflow w "req" None initialState in
      let h := history (snd run) in
      exitCode (execCommand w [] (compileCmd Scenario.project) (Cwd "/repo")) = 0
      /\ (forall h' opts,
            (0 < count isEditFiles h')%nat ->
            0 < exitCode (execCommand w h' (compileCmd Scenario.project) opts))
      /\ fst run = Ok tt
      /\ count isEditFiles h = 1%nat
      /\ count (isExecBy Compile) h = 1%nat
      /\ compilesBeforeEdit h = O
      /\ count (isExecBy StaticAnalysis) h = O
      /\ count isCommit h = O
      /\ count isTestLoop h = O
      /\ count (isExecBy Tests) h = O).
Proof.
  split.
  - intros w requirements projectInfo trace. unfold trace.
    stage_cases w requirements projectInfo; rewrite Hstage;
      cbn [snd history after initialState app];
      [split; counts | | | ];
      (destruct Hpre as [(_ & ->) | (_ & -> & _)]; split; counts).
  - intros w run h. split; [reflexivity|]. split.
    + intros h' opts Hedited.
      change (0 < exitCode (Scenario.execCompileFailsAfterEdit h' "build" opts)).
      unfold Scenario.execCompileFailsAfterEdit.
      destruct (count isEditFiles h') eqn:Hcount; [lia|]. cbn. lia.
    + repeat split; vm_compute; reflexivity.
Qed.

(** When the compile command fails whenever it is run, the baseline
    included, the outcome is the same: one invocation of the editor and one
    execution of the compile command. *)
Example failing_compile_one_edit_one_compile :
  let w := Scenario.world [Scenario.project] Scenario.execCompileFails in
  let run := runCodeEditWorkflow w "req" None initialState in
  (forall h opts,
     0 < exitCode (execCommand w h (compileCmd Scenario.project) opts))
  /\ fst run = Ok tt
  /\ count isEditFiles (history (snd run)) = 1%nat
  /\ count (isExecBy Compile) (history (snd run)) = 1%nat.
Proof.
  intros w run. split; [intros h opts; simpl; lia|].
  repeat split; vm_compute; reflexivity.
Qed.

(** ** Commits of the static-analysis loop (C4) *)

Lemma commitAfterEachAnalysis_internal internal rest :
  forallb isEditorInternal internal = true ->
  commitAfterEachAnalysis (internal ++ rest) = commitAfterEachAnalysis rest.
Proof.
  induction internal as [|e internal IH]; intros Hall; [reflexivity|].
  cbn [forallb] in Hall. apply andb_true_iff in Hall. destruct Hall as [He Hall].
  destruct e; try discriminate He; cbn [app commitAfterEachAnalysis]; auto.
  destruct by_; try discriminate He. auto.
Qed.

(** C4, as amended.  In every run of the static-analysis loop each
    static-analysis run is directly followed by a commit, whether it passed
    or failed, so there are as many commits as rounds: one when the first
    round passes; when it fails, two if the repairing editor call returns,
    and one if that call throws, in which case the error leaves the loop
    and no second round runs. *)
Theorem static_analysis_commits_every_round w projectInfo compileErrorOutput s :
  Js.truthy (staticAnalysis projectInfo) = true ->
  let loop := staticAnalysisLoop w STATIC_ANALYSIS_MAX_ATTEMPTS 0 projectInfo
                compileErrorOutput in
  let evs := eventsOf loop s in
  let first := execCommand w (history s) (Js.render (staticAnalysis projectInfo))
                 NoOpts in
  commitAfterEachAnalysis evs = true
  /\ count isCommit evs = count (isExecBy StaticAnalysis) evs
  /\ count isCommit evs
     = (if 0 <? exitCode first
        then if threw (fst (loop s)) then 1%nat else 2%nat
        else 1%nat).
Proof.
  intros Hsa loop evs first. unfold evs, loop.
  destruct (staticAnalysisLoop_shape w projectInfo compileErrorOutput s Hsa)
    as [(Hexit & Hrun)
       | (Hexit & filenames & files & internal & Hinternal
          & [(thrown & Hrun) | Hrun])];
    cbv zeta in Hrun; fold first in Hexit;
    rewrite (eventsOf_after _ _ _ _ Hrun), Hrun, Hexit; cbn [fst threw].
  - repeat split.
  - split; [|split; counts].
    cbn [app commitAfterEachAnalysis].
    rewrite <- (app_nil_r internal).
    rewrite (commitAfterEachAnalysis_internal _ _ Hinternal). reflexivity.
  - split; [|split; counts].
    norm_app. cbn [commitAfterEachAnalysis].
    rewrite (commitAfterEachAnalysis_internal _ _ Hinternal). reflexivity.
Qed.

Lemma static_analysis_commits_every_round_witness :
  let w := Scenario.world [Scenario.lintedProject] Scenario.execLintFails in
  let loop := staticAnalysisLoop w STATIC_ANALYSIS_MAX_ATTEMPTS 0
                Scenario.lintedProject None in
  let evs := eventsOf loop initialState in
  commitAfterEachAnalysis evs = true
  /\ count isCommit evs = count (isExecBy StaticAnalysis) evs
  /\ count isCommit evs = 2%nat.
Proof.
  intros w.
  apply (static_analysis_commits_every_round w Scenario.lintedProject None initialState).
  reflexivity.
Defined.

(** C4 as stated fails.  The first static-analysis round fails and the
    repairing editor call throws: the workflow throws after one round and
    one commit, where the claim counts two. *)
Lemma failed_repair_leaves_one_commit :
  let w := Scenario.world [Scenario.lintedProject] Scenario.execLintAndRepairFail in
  let run := runCodeEditWorkflow w "req" None initialState in
  (forall h, 0 < exitCode (execCommand w h "lint" NoOpts))
  /\ fst run = Throw " aider: no changes"
  /\ count (isExecBy StaticAnalysis) (history (snd run)) = 1%nat
  /\ count isCommit (history (snd run)) = 1%nat
  /\ count isCommit (history (snd run)) <> 2%nat.
Proof.
  intros w run. split; [intros h; simpl; lia|].
  split; [vm_compute; reflexivity|].
  split; [vm_compute; reflexivity|].
  split; [vm_compute; reflexivity|].
  vm_compute. discriminate.
Qed.

(** ** The text handed to the static-analysis repair (C5) *)

(** When the first static-analysis round fails, the prompt of the filename
    extraction and the requirement of the editor are built from
    [compileErrorOutput], whatever the static-analysis run printed. *)
Lemma static_repair_texts w projectInfo compileErrorOutput s :
  Js.truthy (staticAnalysis projectInfo) = true ->
  let command := Js.render (staticAnalysis projectInfo) in
  let loop := staticAnalysisLoop w STATIC_ANALYSIS_MAX_ATTEMPTS 0 projectInfo
                compileErrorOutput in
  let evs := eventsOf loop s in
  (0 <? exitCode (execCommand w (history s) command NoOpts)) = true ->
  editRequirementTexts evs
  = [("Static analysis command: " ++ command ++ Js.nl
      ++ Js.render compileErrorOutput ++ Js.nl
      ++ "Fix these static analysis errors")%string]
  /\ exists filenames,
       extractionPrompts evs
       = [buildPrompt w
            ("<project_files>" ++ Js.nl ++ Js.join Js.nl filenames ++ Js.nl
             ++ "</project_files>")%string
            (Js.render compileErrorOutput ++ Js.nl ++ Js.nl
             ++ "Extract the filenames from the compile errors.")%string
            extractFilenamesAction].
Proof.
  intros Hsa command loop evs Hfails. unfold evs, loop.
  assert (Hskip : forall internal rest,
            forallb isEditorInternal internal = true ->
            editRequirementTexts (internal ++ rest) = editRequirementTexts rest
            /\ extractionPrompts (internal ++ rest) = extractionPrompts rest).
  { induction internal as [|e internal IH]; intros rest Hall; [split; reflexivity|].
    cbn [forallb] in Hall. apply andb_true_iff in Hall. destruct Hall as [He Hall].
    destruct e; try discriminate He; cbn; auto. }
  destruct (staticAnalysisLoop_shape w projectInfo compileErrorOutput s Hsa)
    as [(Hexit & _)
       | (_ & filenames & files & internal & Hinternal
          & [(thrown & Hrun) | Hrun])];
    [fold command in Hexit; congruence | |];
    cbv zeta in Hrun; rewrite (eventsOf_after _ _ _ _ Hrun).
  - rewrite <- (app_nil_r internal). norm_app.
    cbn [editRequirementTexts extractionPrompts].
    destruct (Hskip internal [] Hinternal) as [-> ->].
    split; [reflexivity|]. exists filenames. reflexivity.
  - norm_app. cbn [editRequirementTexts extractionPrompts].
    destruct (Hskip internal
                [EvExec StaticAnalysis (Js.render (staticAnalysis projectInfo)) NoOpts;
                 EvCommit commitMessage] Hinternal) as [-> ->].
    split; [reflexivity|]. exists filenames. reflexivity.
Qed.

(** C5, on the code.  A project whose lint command fails with
    "a.ts:1 unused variable" on stdout: the requirement handed to the editor
    in the static-analysis loop, and the prompt of the filename extraction,
    hold the message left over from the edit-compile loop and not the output
    of the failed static-analysis run. *)
Theorem static_repair_ignores_analysis_output :
  let w := Scenario.world [Scenario.lintedProject] Scenario.execLintFails in
  let run := runCodeEditWorkflow w "req" None initialState in
  let lint := execCommand w [] "lint" NoOpts in
  let leftover := nullPropertyError "installPackages" in
  stdout lint = "a.ts:1 unused variable"
  /\ editRequirementTexts (history (snd run))
     = [("design" ++ Js.nl ++ "Immediate task: Fix the following compile errors:"
         ++ Js.nl ++ leftover)%string;
        ("Static analysis command: lint" ++ Js.nl ++ leftover ++ Js.nl
         ++ "Fix these static analysis errors")%string]
  /\ Forall (fun text => String.index 0 (stdout lint) text = None
                         /\ String.index 0 leftover text <> None)
       (extractionPrompts (history (snd run))
        ++ skipn 1 (editRequirementTexts (history (snd run)))).
Proof.
  intros w run lint leftover. split; [reflexivity|].
  split; [vm_compute; reflexivity|].
  vm_compute. repeat constructor; discriminate.
Qed.

(** ** The files of the test loop (C6) *)

Lemma editedFileLists_internal internal rest :
  forallb isEditorInternal internal = true ->
  editedFileLists (internal ++ rest) = editedFileLists rest.
Proof.
  induction internal as [|e internal IH]; intros Hall; [reflexivity|].
  cbn [forallb] in Hall. apply andb_true_iff in Hall. destruct Hall as [He Hall].
  destruct e; try discriminate He; cbn; auto.
Qed.

Lemma editedFileLists_app h1 h2 :
  editedFileLists (h1 ++ h2) = editedFileLists h1 ++ editedFileLists h2.
Proof.
  induction h1 as [|e h1 IH]; [reflexivity|].
  destruct e; cbn [app editedFileLists]; rewrite ?IH; reflexivity.
Qed.

(** A round of the test loop invokes the editor once, with the working
    file set, wherever the round ends. *)
Lemma testTry_edits w requirements projectInfo s :
  exists r evs,
    testTry w requirements projectInfo s = (r, after s evs)
    /\ editedFileLists evs = [initialSelectedFiles s].
Proof.
  destruct (testTry_shape w requirements projectInfo s)
    as (r & internal & tail & Hrun & Hinternal & Htail).
  cbv zeta in Hrun. eexists _, _. split; [exact Hrun|].
  cbn [editedFileLists]. rewrite (editedFileLists_internal _ _ Hinternal).
  destruct Htail as [(-> & _) | [(cwd & -> & _) | (cwd & -> & _)]]; reflexivity.
Qed.

(** Whatever happens in the test loop, each of its editor invocations is
    given the working file set with which the loop was entered. *)
Lemma testLoop_edits w requirements projectInfo projectPath s :
  exists r evs,
    testLoop w requirements projectInfo projectPath s = (r, after s evs)
    /\ Forall (fun handed => handed = initialSelectedFiles s) (editedFileLists evs).
Proof.
  destruct (Js.truthy (test projectInfo)) eqn:Ht.
  - rewrite (testLoop_run _ _ _ _ _ Ht). cbv zeta.
    destruct (testTry_edits w requirements projectInfo (after s [EvTestLoop]))
      as (r1 & evs1 & -> & He1).
    cbn [after initialSelectedFiles] in He1.
    destruct r1 as [[]|output1].
    + rewrite after_after. eexists _, _. split; [reflexivity|].
      rewrite editedFileLists_app, He1. repeat constructor.
    + match goal with |- context [testTry w requirements projectInfo ?s3] =>
        destruct (testTry_edits w requirements projectInfo s3)
          as (r2 & evs2 & -> & He2)
      end.
      cbn [after initialSelectedFiles] in He2.
      destruct r2 as [[]|output2]; rewrite !after_after;
        eexists _, _; (split; [reflexivity|]);
        rewrite !editedFileLists_app, He1, He2; repeat constructor.
  - unfold testLoop. rewrite bind_run, emit_run. cbv beta iota. rewrite Ht.
    eexists _, _. split; [reflexivity|]. constructor.
Qed.

(** C6, as amended.  In every run of the test loop, whatever each round
    does and wherever it fails, every invocation of the editor receives the
    working file set as it was passed to the loop, and the loop leaves that
    set unchanged: the files named by the diagnosis of a failed round are
    never added.  When the first round fails at the test command and the
    second round passes, the loop returns without a diagnosis and without
    throwing, after exactly 2 compile executions and 2 editor invocations,
    both on that same file set. *)
Theorem test_loop_retries_with_same_files
    w requirements projectInfo projectPath s :
  let loop := testLoop w requirements projectInfo projectPath in
  let evs := eventsOf loop s in
  let files := initialSelectedFiles s in
  Forall (fun handed => handed = files) (editedFileLists evs)
  /\ initialSelectedFiles (snd (loop s)) = files
  /\ forall output s2,
       testTry w requirements projectInfo (after s [EvTestLoop]) = (Throw output, s2) ->
       count (isExecBy Tests) (history s2) = S (count (isExecBy Tests) (history s)) ->
       fst (testTry w requirements projectInfo
              (after s2 [EvAnalyzeCompileErrors output (initialSelectedFiles s2)]))
       = Ok tt ->
       fst (loop s) = Ok None
       /\ count (isExecBy Compile) evs = 2%nat
       /\ count isEditFiles evs = 2%nat
       /\ editedFileLists evs = [files; files].
Proof.
  intros loop evs files. unfold evs, loop, files.
  split; [|split].
  { destruct (testLoop_edits w requirements projectInfo projectPath s)
      as (r & evs' & Hrun & Hall).
    rewrite (eventsOf_after _ _ _ _ Hrun). exact Hall. }
  { destruct (testLoop_edits w requirements projectInfo projectPath s)
      as (r & evs' & -> & _). reflexivity. }
  intros output s2 Hfirst Hreached Hsecond.
  destruct (testTry_shape w requirements projectInfo (after s [EvTestLoop]))
    as (r1 & internal1 & tail1 & Hrun1 & Hinternal1 & Htail1).
  rewrite Hfirst in Hrun1. inversion Hrun1; subst r1 s2. clear Hrun1.
  assert (Ht : Js.truthy (test projectInfo) = true
               /\ exists cwd, tail1 = [EvExec Compile (compileCmd projectInfo) (Cwd cwd);
                                       EvExec Tests (Js.render (test projectInfo)) NoOpts]).
  { unfold after in Hreached. cbn [history initialSelectedFiles] in Hreached.
    destruct Htail1 as [(-> & _) | [(cwd & -> & _) | (cwd & -> & Ht)]].
    - exfalso. revert Hreached. norm_app. counts.
    - exfalso. revert Hreached. norm_app. counts.
    - split; [exact Ht|]. exists cwd. reflexivity. }
  destruct Ht as (Ht & cwd1 & ->). clear Htail1 Hreached.
  rewrite (testLoop_run _ _ _ _ _ Ht) in *. cbv zeta. rewrite Hfirst.
  match type of Hsecond with
  | fst (testTry _ _ _ ?s3) = _ =>
      destruct (testTry_shape w requirements projectInfo s3)
        as (r2 & internal2 & tail2 & Hrun2 & Hinternal2 & Htail2)
  end.
  rewrite Hrun2 in Hsecond. cbn [fst] in Hsecond. subst r2.
  rewrite (eventsOf_after _ s (Ok None)
             ([EvTestLoop]
              ++ (EvEditFiles (testRequirements requirements) (initialSelectedFiles s)
                  :: internal1
                  ++ [EvExec Compile (compileCmd projectInfo) (Cwd cwd1);
                      EvExec Tests (Js.render (test projectInfo)) NoOpts])
              ++ [EvAnalyzeCompileErrors output (initialSelectedFiles s)]
              ++ (EvEditFiles (testRequirements requirements) (initialSelectedFiles s)
                  :: internal2 ++ tail2)));
    [| rewrite (testLoop_run _ _ _ _ _ Ht); cbv zeta; rewrite Hfirst;
       cbn [initialSelectedFiles after] in *; rewrite Hrun2;
       repeat rewrite after_after; reflexivity ].
  cbn [initialSelectedFiles after] in *. rewrite Hrun2. cbn [fst snd initialSelectedFiles].
  destruct Htail2 as [(_ & Hthrew) | [(cwd & _ & [Hthrew | Hnot]) | (cwd2 & -> & _)]];
    try discriminate Hthrew; [congruence|].
  split; [reflexivity|]. split; [norm_app; counts|]. split; [norm_app; counts|].
  norm_app. cbn [editedFileLists].
  rewrite (editedFileLists_internal _ _ Hinternal1). cbn [editedFileLists].
  rewrite (editedFileLists_internal _ _ Hinternal2). reflexivity.
Qed.

Lemma test_loop_retries_with_same_files_witness :
  let w := Scenario.world [Scenario.project] Scenario.execTestFailsOnce in
  let s := {| history := []; initialSelectedFiles := [Some "a.ts"] |} in
  let loop := testLoop w "req" Scenario.project "/repo/." in
  let evs := eventsOf loop s in
  Forall (fun handed => handed = [Some "a.ts"]) (editedFileLists evs)
  /\ initialSelectedFiles (snd (loop s)) = [Some "a.ts"]
  /\ fst (loop s) = Ok None
  /\ count (isExecBy Compile) evs = 2%nat
  /\ count isEditFiles evs = 2%nat
  /\ editedFileLists evs = [[Some "a.ts"]; [Some "a.ts"]].
Proof.
  intros w s.
  destruct (test_loop_retries_with_same_files w "req" Scenario.project "/repo/." s)
    as (Hall & Hkept & Hscenario).
  split; [exact Hall|]. split; [exact Hkept|].
  apply (Hscenario (testOutput "unit-test" "FAIL case X" "")
           (snd (testTry w "req" Scenario.project (after s [EvTestLoop])))).
  - vm_compute. reflexivity.
  - vm_compute. reflexivity.
  - vm_compute. reflexivity.
Defined.

(** C6 as stated fails.  Scenario A: the test command fails once and the
    diagnosis names [x.ts].  The workflow completes, but the editor
    invocation of the second test round is given [a.ts] only. *)
Lemma second_test_round_lacks_diagnosed_file :
  let w := Scenario.world [Scenario.project] Scenario.execTestFailsOnce in
  let run := runCodeEditWorkflow w "req" None initialState in
  (forall h output files,
     additionalFiles (analyzeCompileErrors w h output files) = Some [Some "x.ts"])
  /\ fst run = Ok tt
  /\ count (isExecBy Tests) (history (snd run)) = 2%nat
  /\ skipn 1 (editedFileLists (history (snd run))) = [[Some "a.ts"]; [Some "a.ts"]]
  /\ ~ In (Some "x.ts") (last (editedFileLists (history (snd run))) []).
Proof.
  intros w run. split; [reflexivity|].
  split; [vm_compute; reflexivity|].
  split; [vm_compute; reflexivity|].
  split; [vm_compute; reflexivity|].
  vm_compute. intros [H|[]]. discriminate H.
Qed.

(** ** The working file set (C7) *)

Lemma editedFileLists_installs installs rest :
  forallb isInstallPackage installs = true ->
  editedFileLists (installs ++ rest) = editedFileLists rest.
Proof.
  induction installs as [|e installs IH]; intros Hall; [reflexivity|].
  cbn [forallb] in Hall. apply andb_true_iff in Hall. destruct Hall as [He Hall].
  destruct e; try discriminate He; cbn; auto.
Qed.

Lemma editFiles_keepsFiles w requirements filesToEdit :
  keepsFiles (CodeEditor.editFilesToMeetRequirements w requirements filesToEdit).
Proof.
  intros s. destruct (editFiles_run w requirements filesToEdit s)
    as (r & evs & -> & _). reflexivity.
Qed.

Lemma afterEditCompile_keepsFiles w requirements g :
  keepsFiles (afterEditCompile w requirements g).
Proof.
  intros s. destruct (afterEditCompile_after w requirements g s) as (r & evs & ->).
  reflexivity.
Qed.

(** The edit-compile loop appends nothing, or the files that version
    control reports as added in the head commit. *)
Lemma editCompileLoop_appends w implementationRequirements info s :
  exists added,
    initialSelectedFiles
      (snd (editCompileLoop w MAX_ATTEMPTS 0 implementationRequirements info
              None None s))
    = initialSelectedFiles s ++ added
    /\ (added = [] \/ exists h, added = getFilesAddedInHeadCommit w h).
Proof.
  destruct (editCompileLoop_shape w implementationRequirements info s)
    as (installs & internal & _ & _ & Hloop).
  cbv zeta in Hloop.
  destruct Hloop as [(thrown & a & ->)
                    | (h & cwd & [(_ & thrown & a & ->) | (_ & ->)])].
  - exists []. rewrite app_nil_r. split; [reflexivity|left; reflexivity].
  - eexists. split; [reflexivity|]. right. exists h. reflexivity.
  - eexists. split; [reflexivity|]. right. exists h. reflexivity.
Qed.

(** C7, as amended.  The working file set [initialSelectedFiles] starts as
    the selected primary files followed by the selected secondary files and
    only ever has entries appended.  It grows at one place: when the editor
    invocation of the edit-compile loop has returned, the files that version
    control then reports as added in the head commit are appended, before
    the compile that follows; when that editor invocation throws, no compile
    runs and the set stays the selection.  The editor, the static-analysis
    stage and the test stage leave it alone.  The files named by the first
    diagnosis are appended to the per-round copy handed to the editor in the
    edit-compile loop, not to the working file set. *)
Theorem working_file_set_grows_with_new_files_only w requirements projectInfo :
  let run := runCodeEditWorkflow w requirements projectInfo initialState in
  (forall text files, keepsFiles (CodeEditor.editFilesToMeetRequirements w text files))
  /\ (forall text info,
        onlyAppends (editCompileLoop w MAX_ATTEMPTS 0 text info None None))
  /\ (forall g, keepsFiles (afterEditCompile w requirements g))
  /\ ((fst run = Throw "projectInfo array must have one item"
       /\ initialSelectedFiles (snd run) = [])
      \/ exists info pre,
           ((projectInfo = Some info /\ pre = [])
            \/ (projectInfo = None /\ pre = [EvDetectProjectInfo]
                /\ detectProjectInfo w [] = [info]))
           /\ let setup := pre ++ [EvSetWorkingDirectory (baseDir info)] in
              let response := selectFilesToEdit w setup requirements info in
              let selected := map path (primaryFiles response)
                              ++ map path (secondaryFiles response) in
              let selecting := setup ++ [EvSelectFilesToEdit requirements] in
              let prompt :=
                implementationPrompt
                  (getMultipleFileContentsAsXml w selecting selected) requirements in
              let diagnosis :=
                analyzeCompileErrors w (selecting ++ [EvGenerateText prompt])
                  (nullPropertyError "installPackages") selected in
              let handed :=
                match additionalFiles diagnosis with
                | Some more => selected ++ more
                | None => selected
                end in
              hd_error (editedFileLists (history (snd run))) = Some handed
              /\ ((count (isExecBy Compile) (history (snd run)) = O
                   /\ initialSelectedFiles (snd run) = selected)
                  \/ exists before cwd rest,
                       history (snd run)
                       = before ++ EvExec Compile (compileCmd info) (Cwd cwd) :: rest
                       /\ count (isExecBy Compile) before = O
                       /\ initialSelectedFiles (snd run)
                          = selected ++ getFilesAddedInHeadCommit w before)).
Proof.
  intros run. split; [intros; apply editFiles_keepsFiles|].
  split.
  { intros text info s.
    destruct (editCompileLoop_appends w text info s) as (added & Hadded & _).
    exists added. exact Hadded. }
  split; [intros; apply afterEditCompile_keepsFiles|].
  unfold run, runCodeEditWorkflow. rewrite bind_run.
  destruct (resolveProjectInfo_run w projectInfo initialState)
    as [(Hnone & Hlen & Hres) | (info & pre & Hpre & Hres)].
  { left. unfold editCompileStage. rewrite bind_run, Hres. split; reflexivity. }
  right. exists info, pre. split; [exact Hpre|].
  set (setup := pre ++ [EvSetWorkingDirectory (baseDir info)]).
  set (response := selectFilesToEdit w setup requirements info).
  set (selected := map path (primaryFiles response)
                   ++ map path (secondaryFiles response)).
  set (selecting := setup ++ [EvSelectFilesToEdit requirements]).
  set (prompt := implementationPrompt
                   (getMultipleFileContentsAsXml w selecting selected) requirements).
  set (diagnosis := analyzeCompileErrors w (selecting ++ [EvGenerateText prompt])
                      (nullPropertyError "installPackages") selected).
  set (handed := match additionalFiles diagnosis with
                 | Some more => selected ++ more
                 | None => selected
                 end).
  pose proof (editCompileStage_resolved w requirements projectInfo initialState
                info pre Hres) as Hstage.
  cbv zeta in Hstage. cbn [history initialState app] in Hstage.
  fold setup in Hstage. fold response in Hstage. fold selected in Hstage.
  fold selecting in Hstage. fold prompt in Hstage.
  set (impl := generateText w selecting prompt) in Hstage.
  match type of Hstage with context [editCompileLoop w _ _ impl info None None ?s0] =>
    destruct (editCompileLoop_run w impl info s0)
      as (installs & internal & Hinstalls & Hinternal & Hloop)
  end.
  cbv zeta in Hloop. cbn [history initialSelectedFiles] in Hloop.
  fold diagnosis in Hloop. fold handed in Hloop.
  set (started := selecting ++ [EvGenerateText prompt]) in *.
  match type of Hloop with context [execCommand w (started ++ ?evs) _ _] =>
    set (edited := evs) in *
  end.
  assert (Hfirst : forall rest,
            hd_error (editedFileLists ((started ++ edited) ++ rest)) = Some handed).
  { intros rest. subst started selecting setup edited.
    destruct Hpre as [(_ & ->) | (_ & -> & _)]; norm_app; cbn [editedFileLists];
      rewrite (editedFileLists_installs _ _ Hinstalls); reflexivity. }
  assert (Hbefore : count (isExecBy Compile) (started ++ edited) = O).
  { subst started selecting setup edited.
    destruct Hpre as [(_ & ->) | (_ & -> & _)]; counts. }
  destruct Hloop as [(thrown & Hloop) | [(Hexit & Hloop) | (Hexit & Hloop)]];
    rewrite Hloop in Hstage; rewrite Hstage; clear Hloop Hstage;
    cbv beta iota.
  - unfold afterEditCompile, ret, after.
    cbn [gateAnalysis fst snd history initialSelectedFiles].
    rewrite app_assoc. split; [apply Hfirst|]. left.
    rewrite count_app, Hbefore. split; reflexivity.
  - unfold afterEditCompile, ret.
    cbn [gateAnalysis fst snd history initialSelectedFiles].
    rewrite app_assoc. split; [apply Hfirst|]. right.
    eexists (started ++ edited), _, _.
    split; [reflexivity|]. split; [exact Hbefore|reflexivity].
  - match goal with |- context [afterEditCompile w requirements ?g ?s1] =>
      destruct (afterEditCompile_after w requirements g s1) as (r & evs & ->)
    end.
    unfold after. cbn [fst snd history initialSelectedFiles].
    rewrite <- !app_assoc. rewrite (app_assoc started edited).
    split; [apply Hfirst|]. right.
    eexists (started ++ edited), _, _.
    split; [reflexivity|]. split; [exact Hbefore|reflexivity].
Qed.

(** A run in which the editor's commit adds [new.ts] and the compile that
    follows fails: the file has entered the working file set, the file
    named by the diagnosis has not. *)
Example committed_file_enters_working_set :
  let run := runCodeEditWorkflow Scenario.committing "req" None initialState in
  editedFileLists (history (snd run)) = [[Some "a.ts"; Some "x.ts"]]
  /\ count (isExecBy Compile) (history (snd run)) = 1%nat
  /\ initialSelectedFiles (snd run) = [Some "a.ts"; Some "new.ts"].
Proof.
  intros run. repeat split; vm_compute; reflexivity.
Qed.

(** C7 as stated fails.  Scenario A: every diagnosis names [x.ts]; the file
    is handed to the editor once, in the edit-compile loop, but never enters
    the working file set, which is [a.ts] at the end of the run, and the
    later editor invocations are given [a.ts] only. *)
Lemma diagnosed_file_never_enters_working_set :
  let w := Scenario.world [Scenario.project] Scenario.execTestFailsOnce in
  let run := runCodeEditWorkflow w "req" None initialState in
  (forall h output files,
     additionalFiles (analyzeCompileErrors w h output files) = Some [Some "x.ts"])
  /\ count isEditFiles (history (snd run)) = 3%nat
  /\ editedFileLists (history (snd run))
     = [[Some "a.ts"; Some "x.ts"]; [Some "a.ts"]; [Some "a.ts"]]
  /\ initialSelectedFiles (snd run) = [Some "a.ts"]
  /\ ~ In (Some "x.ts") (initialSelectedFiles (snd run)).
Proof.
  intros w run. split; [reflexivity|].
  split; [vm_compute; reflexivity|].
  split; [vm_compute; reflexivity|].
  split; [vm_compute; reflexivity|].
  vm_compute. intros [H|[]]. discriminate H.
Qed.

(** ** The history file of the editor ([parseAiderInput], [parseAiderOutput]) *)

Lemma splitLines_not_nil s : Js.splitLines s <> [].
Proof.
  destruct s as [|c s]; simpl; [discriminate|].
  destruct (Ascii.eqb c (ascii_of_nat 10)); [discriminate|].
  destruct (Js.splitLines s); discriminate.
Qed.

Lemma join_cons_cons sep x y rest :
  Js.join sep (x :: y :: rest) = (x ++ sep ++ Js.join sep (y :: rest))%string.
Proof. reflexivity. Qed.

(** Splitting a text into lines and joining them again gives the text back. *)
Lemma join_splitLines s : Js.join Js.nl (Js.splitLines s) = s.
Proof.
  induction s as [|c s IH]; [reflexivity|].
  simpl Js.splitLines.
  destruct (Ascii.eqb_spec c (ascii_of_nat 10)) as [-> | Hc].
  - destruct (Js.splitLines s) as [|line rest] eqn:Hs;
      [destruct (splitLines_not_nil s Hs)|].
    rewrite join_cons_cons, IH. reflexivity.
  - destruct (Js.splitLines s) as [|line rest] eqn:Hs;
      [destruct (splitLines_not_nil s Hs)|].
    destruct rest as [|line' rest].
    + simpl in IH. rewrite <- IH. reflexivity.
    + rewrite join_cons_cons in IH. rewrite <- IH. reflexivity.
Qed.

Lemma splitLines_single text :
  singleLine text = true -> Js.splitLines text = [text].
Proof.
  induction text as [|c text IH]; [reflexivity|].
  unfold singleLine. simpl. intros H. apply andb_true_iff in H.
  destruct H as [Hc Htext]. apply negb_true_iff in Hc. rewrite Hc.
  rewrite (IH Htext). reflexivity.
Qed.

Lemma splitLines_line text rest :
  singleLine text = true ->
  Js.splitLines (text ++ Js.nl ++ rest) = text :: Js.splitLines rest.
Proof.
  induction text as [|c text IH]; [reflexivity|].
  unfold singleLine. simpl. intros H. apply andb_true_iff in H.
  destruct H as [Hc Htext]. apply negb_true_iff in Hc. rewrite Hc.
  change (Js.splitLines (text ++ String (ascii_of_nat 10) rest))
    with (Js.splitLines (text ++ Js.nl ++ rest)).
  rewrite (IH Htext). reflexivity.
Qed.

Lemma splitLines_join line lines :
  forallb singleLine (line :: lines) = true ->
  Js.splitLines (Js.join Js.nl (line :: lines)) = line :: lines.
Proof.
  revert line. induction lines as [|line' lines IH]; intros line Hall;
    cbn [forallb] in Hall; apply andb_true_iff in Hall; destruct Hall as [Hline Hall].
  - apply splitLines_single. exact Hline.
  - rewrite join_cons_cons, (splitLines_line _ _ Hline), (IH _ Hall). reflexivity.
Qed.

Lemma singleLine_entry role text :
  singleLine (roleName role ++ " " ++ text) = singleLine text.
Proof. destruct role; reflexivity. Qed.

Lemma input_line role text :
  (prefix "SYSTEM" (roleName role ++ " " ++ text)
   || prefix "USER" (roleName role ++ " " ++ text))%bool
  = negb (isAssistant role).
Proof. destruct role; reflexivity. Qed.

Lemma output_line role text :
  prefix "ASSISTANT" (roleName role ++ " " ++ text) = isAssistant role.
Proof. destruct role; reflexivity. Qed.

Lemma splitLines_transcript entries :
  entries <> [] ->
  forallb (fun entry => singleLine (snd entry)) entries = true ->
  Js.splitLines (transcript entries)
  = map (fun entry => (roleName (fst entry) ++ " " ++ snd entry)%string) entries.
Proof.
  intros Hne Hall. unfold transcript.
  destruct entries as [|entry entries]; [contradiction Hne; reflexivity|].
  cbn [map]. apply splitLines_join.
  change (forallb singleLine
            (map (fun e => (roleName (fst e) ++ " " ++ snd e)%string) (entry :: entries))
          = true).
  revert Hall. generalize (entry :: entries) as l. clear.
  induction l as [|[role text] l IH]; [reflexivity|].
  cbn [forallb map fst snd]. rewrite singleLine_entry.
  intros H. apply andb_true_iff in H. destruct H as [-> H]. apply IH. exact H.
Qed.

(** X13.  On a history file that has one line per entry (a role, a space
    and a text without line feed), [parseAiderInput] returns the texts of
    the SYSTEM and USER entries and [parseAiderOutput] the texts of the
    ASSISTANT entries, each in order, joined by line feeds and without the
    role prefix. *)
Theorem parseAider_splits_transcript entries :
  forallb (fun entry => singleLine (snd entry)) entries = true ->
  CodeEditor.parseAiderInput (transcript entries)
  = Js.join Js.nl (map snd (filter (fun entry => negb (isAssistant (fst entry))) entries))
  /\ CodeEditor.parseAiderOutput (transcript entries)
     = Js.join Js.nl (map snd (filter (fun entry => isAssistant (fst entry)) entries)).
Proof.
  intros Hall.
  unfold CodeEditor.parseAiderInput, CodeEditor.parseAiderOutput.
  destruct entries as [|entry entries]; [split; reflexivity|].
  assert (Hne : entry :: entries <> []) by discriminate.
  rewrite (splitLines_transcript _ Hne Hall). clear Hne.
  clear Hall. generalize (entry :: entries) as l. clear.
  intros l. split; f_equal.
  - induction l as [|[role text] l IH]; [reflexivity|].
    cbn [map filter fst snd]. rewrite input_line.
    destruct (negb (isAssistant role)) eqn:Hrole; [|exact IH].
    cbn [map fst snd]. rewrite IH. f_equal.
    destruct role; try discriminate Hrole; reflexivity.
  - induction l as [|[role text] l IH]; [reflexivity|].
    cbn [map filter fst snd]. rewrite output_line.
    destruct (isAssistant role) eqn:Hrole; [|exact IH].
    cbn [map fst snd]. rewrite IH. f_equal.
    destruct role; try discriminate Hrole; reflexivity.
Qed.

Lemma parseAider_splits_transcript_witness :
  let entries := [(System, "be brief"); (User, "add a test");
                  (Assistant, "done"); (User, "thanks")]%string in
  CodeEditor.parseAiderInput (transcript entries)
  = ("be brief" ++ Js.nl ++ "add a test" ++ Js.nl ++ "thanks")%string
  /\ CodeEditor.parseAiderOutput (transcript entries) = "done".
Proof.
  intros entries.
  apply (parseAider_splits_transcript entries). reflexivity.
Defined.

Lemma length_append (a b : string) :
  String.length (a ++ b) = (String.length a + String.length b)%nat.
Proof. induction a as [|c a IH]; simpl; [reflexivity|]. rewrite IH. reflexivity. Qed.

(** The length of joined lines: one more than it is the number of lines plus
    their lengths. *)
Lemma length_join lines :
  String.length (Js.join Js.nl lines)
  = (list_sum (map (fun line => S (String.length line)) lines) - 1)%nat.
Proof.
  induction lines as [|line lines IH]; [reflexivity|].
  destruct lines as [|line' lines].
  - simpl. lia.
  - rewrite join_cons_cons, !length_append, IH.
    change (String.length Js.nl) with 1%nat. simpl map. simpl list_sum. lia.
Qed.

Lemma afterPrefix_length p s rest :
  Js.afterPrefix p s = Some rest ->
  String.length s = (String.length p + String.length rest)%nat.
Proof.
  revert s. induction p as [|a p IH]; intros s H; simpl in H.
  - inversion H. reflexivity.
  - destruct s as [|b s]; [discriminate|].
    destruct (Ascii.eqb a b); [|discriminate].
    simpl. rewrite (IH _ H). reflexivity.
Qed.

Lemma removeLeading_length alternatives line :
  (String.length (Js.removeLeading alternatives line) <= String.length line)%nat.
Proof.
  induction alternatives as [|alternative others IH]; simpl; [lia|].
  destruct (Js.afterPrefix alternative line) as [[|c rest]|] eqn:Hafter; try exact IH.
  destruct (Js.isWhiteSpace c); [|exact IH].
  apply afterPrefix_length in Hafter. simpl in Hafter. lia.
Qed.

Lemma weight_removeLeading alternatives lines :
  (list_sum (map (fun line => S (String.length line))
               (map (Js.removeLeading alternatives) lines))
   <= list_sum (map (fun line => S (String.length line)) lines))%nat.
Proof.
  induction lines as [|line lines IH]; simpl; [lia|].
  pose proof (removeLeading_length alternatives line). lia.
Qed.

Lemma weight_disjoint_filters (p q : string -> bool) lines :
  (forall line, p line = true -> q line = false) ->
  (list_sum (map (fun line => S (String.length line)) (filter p lines))
   + list_sum (map (fun line => S (String.length line)) (filter q lines))
   <= list_sum (map (fun line => S (String.length line)) lines))%nat.
Proof.
  intros Hpq. induction lines as [|line lines IH]; simpl; [lia|].
  destruct (p line) eqn:Hp.
  - rewrite (Hpq _ Hp). simpl. lia.
  - destruct (q line); simpl; lia.
Qed.

Lemma roles_disjoint line :
  (prefix "SYSTEM" line || prefix "USER" line)%bool = true ->
  prefix "ASSISTANT" line = false.
Proof.
  destruct line as [|c line]; [discriminate|].
  cbn [prefix].
  destruct (ascii_dec "A" c) as [<-|]; [|reflexivity].
  discriminate.
Qed.

(** X14.  For every text, the characters returned by [parseAiderInput] and
    by [parseAiderOutput] together are no more than the characters of the
    text: no line is counted on both sides, and removing a role only
    shortens a line. *)
Theorem parseAider_lengths_bounded output :
  (String.length (CodeEditor.parseAiderInput output)
   + String.length (CodeEditor.parseAiderOutput output)
   <= String.length output)%nat.
Proof.
  unfold CodeEditor.parseAiderInput, CodeEditor.parseAiderOutput.
  rewrite !length_join.
  pose proof (weight_removeLeading ["SYSTEM"; "USER"]%string
                (filter (fun line => (prefix "SYSTEM" line || prefix "USER" line)%bool)
                   (Js.splitLines output))) as Hin.
  pose proof (weight_removeLeading ["ASSISTANT"]%string
                (filter (fun line => prefix "ASSISTANT" line)
                   (Js.splitLines output))) as Hout.
  pose proof (weight_disjoint_filters
                (fun line => (prefix "SYSTEM" line || prefix "USER" line)%bool)
                (fun line => prefix "ASSISTANT" line)
                (Js.splitLines output) roles_disjoint) as Hsum.
  pose proof (length_join (Js.splitLines output)) as Hall.
  rewrite join_splitLines in Hall. lia.
Qed.

(** ** The outcomes of the editor *)

(** All runs of [editFilesToMeetRequirements]: without a key it throws after
    writing the message file; when the history file cannot be written it
    throws without executing anything; otherwise it executes the aider
    command once and throws exactly when the exit code is positive. *)
Lemma editFiles_cases w requirements filesToEdit s :
  let run := CodeEditor.editFilesToMeetRequirements w requirements filesToEdit s in
  let entered := [EvEditFiles requirements filesToEdit;
                  EvWriteFile CodeEditor.messageFilePath requirements] in
  (CodeEditor.selectModel w = None
   /\ run = (Throw "Aider code editing requires a key for Anthropic, Deepseek or OpenAI",
             after s entered))
  \/ exists modelArg env llmHistoryFile,
       CodeEditor.selectModel w = Some (modelArg, env)
       /\ let prepared := entered ++ [EvMkdir ".nous/aider/llm-history";
                                      EvWriteFileSync llmHistoryFile] in
          let cmd := CodeEditor.aiderCommand modelArg llmHistoryFile
                       (filter CodeEditor.keepFile filesToEdit) in
          ((exists message,
              run = (Throw ("Fatal Error reading/writing Aider llmH-history-file. Error: "
                            ++ message)%string,
                     after s prepared))
           \/ (let r := execCommand w (history s ++ prepared) cmd env in
               run = (if 0 <? exitCode r
                      then Throw (stdout r ++ " " ++ stderr r)%string
                      else Ok tt,
                      after s (prepared ++ [EvExec Aider cmd env])))).
Proof.
  intros run entered.
  pose proof (eq_refl run) as HL. unfold run at 1 in HL.
  unfold CodeEditor.editFilesToMeetRequirements in HL.
  rewrite bind_run, emit_run in HL. cbv beta iota in HL.
  rewrite bind_run, emit_run, after_after in HL. cbv beta iota in HL.
  cbn [app] in HL. fold entered in HL.
  destruct (CodeEditor.selectModel w) as [[modelArg env]|];
    [right|left; split; [reflexivity|rewrite <- HL; reflexivity]].
  rewrite bind_run, emit_run, after_after in HL. cbv beta iota in HL.
  rewrite bind_run in HL. unfold ask at 1 in HL. cbv beta iota in HL.
  rewrite bind_run, call_run, after_after in HL. cbv beta iota in HL.
  unfold after in HL. cbn [history initialSelectedFiles] in HL.
  repeat first [rewrite <- app_assoc in HL | progress cbn [app] in HL].
  match type of HL with context [EvWriteFileSync ?f] => exists modelArg, env, f end.
  split; [reflexivity|]. cbv zeta. unfold after. subst entered. norm_app.
  match type of HL with context [writeFileSync w ?h ?f] =>
    destruct (writeFileSync w h f) as [message|] end.
  - left. exists message. rewrite <- HL. reflexivity.
  - right. rewrite bind_run, call_run in HL. cbv beta iota in HL.
    unfold after in HL. cbn [history initialSelectedFiles] in HL.
    repeat first [rewrite <- app_assoc in HL | progress cbn [app] in HL].
    rewrite <- HL.
    match goal with |- context [0 <? ?x] => destruct (0 <? x) end; reflexivity.
Qed.

Lemma truthy_render v : Js.truthy v = true -> Js.render v <> "".
Proof.
  destruct v as [k|]; simpl; [|discriminate].
  destruct (String.eqb_spec k ""); [discriminate|]. intros _. assumption.
Qed.

(** The choice of the key: the first provider, in the order Anthropic,
    Deepseek, OpenAI, that has a non-empty key; for a provider the key of
    the user's configuration unless it is missing or empty. *)
Lemma selectModel_key w modelArg env :
  CodeEditor.selectModel w = Some (modelArg, env) ->
  exists name value,
    env = EnvVars name value /\ value <> ""
    /\ (name = "ANTHROPIC_API_KEY" \/ name = "DEEPSEEK_API_KEY"
        \/ name = "OPENAI_API_KEY").
Proof.
  unfold CodeEditor.selectModel.
  destruct (Js.truthy (Js.or (userAnthropicKey w) (envAnthropicKey w))) eqn:Ha;
    [|destruct (Js.truthy (Js.or (userDeepseekKey w) (envDeepseekKey w))) eqn:Hd;
      [|destruct (Js.truthy (Js.or (userOpenaiKey w) (envOpenaiKey w))) eqn:Ho;
        [|discriminate]]];
    intros H; inversion H; eexists _, _; (split; [reflexivity|]);
    (split; [apply truthy_render; assumption|]); auto.
Qed.

(** X9.  Without any key (each of the six is missing or empty) the editor
    throws its key error.  By then it has written the requirements to the
    message file and done nothing else: no directory, no history file, no
    command. *)
Theorem editor_without_key_throws w requirements filesToEdit s :
  Js.truthy (userAnthropicKey w) = false ->
  Js.truthy (envAnthropicKey w) = false ->
  Js.truthy (userDeepseekKey w) = false ->
  Js.truthy (envDeepseekKey w) = false ->
  Js.truthy (userOpenaiKey w) = false ->
  Js.truthy (envOpenaiKey w) = false ->
  CodeEditor.editFilesToMeetRequirements w requirements filesToEdit s
  = (Throw "Aider code editing requires a key for Anthropic, Deepseek or OpenAI",
     after s [EvEditFiles requirements filesToEdit;
              EvWriteFile ".aider-requirements" requirements]).
Proof.
  intros Hua Hea Hud Hed Huo Heo.
  assert (Hnone : CodeEditor.selectModel w = None).
  { unfold CodeEditor.selectModel, Js.or.
    rewrite Hua, Hea, Hud, Hed, Huo, Heo. reflexivity. }
  destruct (editFiles_cases w requirements filesToEdit s)
    as [(_ & Hrun) | (modelArg & env & f & Hsome & _)]; [exact Hrun|congruence].
Qed.

Lemma editor_without_key_throws_witness :
  CodeEditor.editFilesToMeetRequirements Scenario.keyless "req" [Some "a.ts"] initialState
  = (Throw "Aider code editing requires a key for Anthropic, Deepseek or OpenAI",
     after initialState [EvEditFiles "req" [Some "a.ts"];
                         EvWriteFile ".aider-requirements" "req"]).
Proof.
  apply (editor_without_key_throws Scenario.keyless "req" [Some "a.ts"] initialState);
    reflexivity.
Defined.

(** X10.  Every command executed by the editor is the aider command, run
    with exactly one API key in its environment, and that key is never the
    empty string. *)
Theorem editor_never_passes_empty_key w requirements filesToEdit s by_ cmd opts :
  In (EvExec by_ cmd opts)
     (eventsOf (CodeEditor.editFilesToMeetRequirements w requirements filesToEdit) s) ->
  by_ = Aider
  /\ exists name value,
       opts = EnvVars name value /\ value <> ""
       /\ (name = "ANTHROPIC_API_KEY" \/ name = "DEEPSEEK_API_KEY"
           \/ name = "OPENAI_API_KEY").
Proof.
  destruct (editFiles_cases w requirements filesToEdit s)
    as [(_ & Hrun) | (modelArg & env & f & Hsome & [(message & Hrun) | Hrun])];
    cbv zeta in Hrun; rewrite (eventsOf_after _ _ _ _ Hrun); cbn [In app];
    intros Hin;
    repeat match goal with H : _ \/ _ |- _ => destruct H as [H|H] end;
    try discriminate; try contradiction.
  inversion Hin; subst. split; [reflexivity|].
  apply (selectModel_key w modelArg). exact Hsome.
Qed.

Lemma editor_never_passes_empty_key_witness :
  let opts := EnvVars "ANTHROPIC_API_KEY" "env-a" in
  Aider = Aider
  /\ exists name value,
       opts = EnvVars name value /\ value <> ""
       /\ (name = "ANTHROPIC_API_KEY" \/ name = "DEEPSEEK_API_KEY"
           \/ name = "OPENAI_API_KEY").
Proof.
  intros opts.
  apply (editor_never_passes_empty_key Scenario.envKeys "req" [Some "a.ts"] initialState
           Aider
           (CodeEditor.aiderCommand "--sonnet"
              ".nous/aider/llm-history/agent-1700000000000" [Some "a.ts"])
           opts).
  vm_compute. do 4 right. left. reflexivity.
Defined.



(** X12.  The editor returns normally only after exactly one execution of
    the aider command, and that execution ended with an exit code that is
    not positive. *)
Theorem editor_returns_after_one_clean_run w requirements filesToEdit s :
  let edit := CodeEditor.editFilesToMeetRequirements w requirements filesToEdit in
  fst (edit s) = Ok tt ->
  count (isExecBy Aider) (eventsOf edit s) = 1%nat
  /\ exists before cmd env,
       eventsOf edit s = before ++ [EvExec Aider cmd env]
       /\ exitCode (execCommand w (history s ++ before) cmd env) <= 0.
Proof.
  intros edit. unfold edit.
  destruct (editFiles_cases w requirements filesToEdit s)
    as [(_ & Hrun) | (modelArg & env & f & _ & [(message & Hrun) | Hrun])];
    cbv zeta in Hrun; rewrite (eventsOf_after _ _ _ _ Hrun), Hrun; cbn [fst];
    try discriminate.
  match goal with |- context [0 <? ?x] => destruct (Z.ltb_spec 0 x) end;
    [discriminate|]. intros _. split; [reflexivity|].
  eexists _, _, _. split; [reflexivity|]. assumption.
Qed.

Lemma editor_returns_after_one_clean_run_witness :
  let w := Scenario.world [Scenario.project] Scenario.execOk in
  let edit := CodeEditor.editFilesToMeetRequirements w "req" [Some "a.ts"] in
  count (isExecBy Aider) (eventsOf edit initialState) = 1%nat
  /\ exists before cmd env,
       eventsOf edit initialState = before ++ [EvExec Aider cmd env]
       /\ exitCode (execCommand w (history initialState ++ before) cmd env) <= 0.
Proof.
  intros w.
  apply (editor_returns_after_one_clean_run w "req" [Some "a.ts"] initialState).
  reflexivity.
Defined.

(** A run of the editor once a key is found, with every answer of the
    world named: the name of the history file is made from the clock read
    after the directory was created, and the command is executed only when
    the history file could be written. *)
Lemma editFiles_prepared w requirements filesToEdit s modelArg env :
  CodeEditor.selectModel w = Some (modelArg, env) ->
  let entered := [EvEditFiles requirements filesToEdit;
                  EvWriteFile CodeEditor.messageFilePath requirements;
                  EvMkdir ".nous/aider/llm-history"] in
  let now := dateNow w (history s ++ entered) in
  let llmHistoryFile :=
    (".nous/aider/llm-history/" ++ agentId w ++ "-" ++ Js.numberToString now)%string in
  let prepared := entered ++ [EvWriteFileSync llmHistoryFile] in
  let cmd := CodeEditor.aiderCommand modelArg llmHistoryFile
               (filter CodeEditor.keepFile filesToEdit) in
  let r := execCommand w (history s ++ prepared) cmd env in
  CodeEditor.editFilesToMeetRequirements w requirements filesToEdit s
  = match writeFileSync w (history s ++ entered) llmHistoryFile with
    | Some cause =>
        (Throw ("Fatal Error reading/writing Aider llmH-history-file. Error: "
                ++ cause)%string,
         after s prepared)
    | None =>
        (if 0 <? exitCode r
         then Throw (stdout r ++ " " ++ stderr r)%string
         else Ok tt,
         after s (prepared ++ [EvExec Aider cmd env]))
    end.
Proof.
  intros Hmodel entered now llmHistoryFile prepared cmd r.
  unfold CodeEditor.editFilesToMeetRequirements. rewrite Hmodel.
  rewrite bind_run, emit_run. cbv beta iota.
  rewrite bind_run, emit_run, after_after. cbv beta iota.
  rewrite bind_run, emit_run, after_after. cbv beta iota.
  rewrite bind_run. unfold ask at 1. cbv beta iota.
  rewrite bind_run, call_run, after_after. cbv beta iota.
  cbn [app]. cbn [after history]. fold entered. fold now. fold llmHistoryFile.
  destruct (writeFileSync w (history s ++ entered) llmHistoryFile) as [cause|].
  - reflexivity.
  - rewrite bind_run, call_run, after_after. cbv beta iota.
    cbn [after history]. fold cmd.
    subst r prepared entered. cbn [app].
    match goal with |- context [0 <? ?x] => destruct (0 <? x) end; reflexivity.
Qed.

(** X15.  When a key is found but the history file cannot be created, the
    editor throws the history-file error, which carries the message of the
    cause, and it stops there: its last action is the attempt to write the
    history file, and the aider command is not executed. *)
Theorem editor_stops_when_history_file_fails
    w requirements filesToEdit s modelArg env cause :
  let edit := CodeEditor.editFilesToMeetRequirements w requirements filesToEdit in
  let entered := [EvEditFiles requirements filesToEdit;
                  EvWriteFile ".aider-requirements" requirements;
                  EvMkdir ".nous/aider/llm-history"] in
  let now := dateNow w (history s ++ entered) in
  let llmHistoryFile :=
    (".nous/aider/llm-history/" ++ agentId w ++ "-" ++ Js.numberToString now)%string in
  CodeEditor.selectModel w = Some (modelArg, env) ->
  writeFileSync w (history s ++ entered) llmHistoryFile = Some cause ->
  edit s
  = (Throw ("Fatal Error reading/writing Aider llmH-history-file. Error: "
            ++ cause)%string,
     after s (entered ++ [EvWriteFileSync llmHistoryFile]))
  /\ count (isExecBy Aider) (eventsOf edit s) = O.
Proof.
  intros edit entered now llmHistoryFile Hmodel Hwrite.
  assert (Hrun : edit s
                 = (Throw ("Fatal Error reading/writing Aider llmH-history-file. Error: "
                           ++ cause)%string,
                    after s (entered ++ [EvWriteFileSync llmHistoryFile]))).
  { unfold edit. rewrite (editFiles_prepared _ _ _ _ _ _ Hmodel). cbv zeta.
    unfold CodeEditor.messageFilePath at 1 2 3.
    fold entered. fold now. fold llmHistoryFile. rewrite Hwrite. reflexivity. }
  split; [exact Hrun|].
  rewrite (eventsOf_after _ _ _ _ Hrun). reflexivity.
Qed.

Lemma editor_stops_when_history_file_fails_witness :
  let edit := CodeEditor.editFilesToMeetRequirements Scenario.readOnly "req"
                [Some "a.ts"] in
  let attempted :=
    [EvEditFiles "req" [Some "a.ts"];
     EvWriteFile ".aider-requirements" "req";
     EvMkdir ".nous/aider/llm-history";
     EvWriteFileSync ".nous/aider/llm-history/agent-1700000000000"] in
  edit initialState
  = (Throw "Fatal Error reading/writing Aider llmH-history-file. Error: EACCES: permission denied",
     after initialState attempted)
  /\ count (isExecBy Aider) (eventsOf edit initialState) = O.
Proof.
  intros edit attempted.
  apply (editor_stops_when_history_file_fails Scenario.readOnly "req" [Some "a.ts"]
           initialState "--sonnet" (EnvVars "ANTHROPIC_API_KEY" "k")
           "EACCES: permission denied").
  - reflexivity.
  - reflexivity.
Defined.

Lemma filter_keepFile_blank files :
  forallb isBlank files = true -> filter CodeEditor.keepFile files = [].
Proof.
  induction files as [|file files IH]; [reflexivity|].
  cbn [forallb]. intros Hblank. apply andb_true_iff in Hblank.
  destruct Hblank as [Hfile Hfiles]. cbn [filter].
  rewrite keepFile_not_blank, Hfile. cbn [negb]. apply IH. exact Hfiles.
Qed.

(** X16.  When every entry of the file list is blank, and so when the list
    is empty, the editor does not stop: provided a key is found and the
    history file can be created, it executes exactly one command, the aider
    command line without any file argument. *)
Theorem editor_runs_without_files_when_all_blank
    w requirements filesToEdit s modelArg env :
  let edit := CodeEditor.editFilesToMeetRequirements w requirements filesToEdit in
  let entered := [EvEditFiles requirements filesToEdit;
                  EvWriteFile ".aider-requirements" requirements;
                  EvMkdir ".nous/aider/llm-history"] in
  let now := dateNow w (history s ++ entered) in
  let llmHistoryFile :=
    (".nous/aider/llm-history/" ++ agentId w ++ "-" ++ Js.numberToString now)%string in
  forallb isBlank filesToEdit = true ->
  CodeEditor.selectModel w = Some (modelArg, env) ->
  writeFileSync w (history s ++ entered) llmHistoryFile = None ->
  aiderCommands (eventsOf edit s)
  = [("aider --no-check-update --yes " ++ modelArg
      ++ " --llm-history-file=" ++ Js.dq ++ llmHistoryFile ++ Js.dq
      ++ " --message-file=.aider-requirements ")%string]
  /\ count (isExecBy Aider) (eventsOf edit s) = 1%nat.
Proof.
  intros edit entered now llmHistoryFile Hblank Hmodel Hwrite.
  pose proof (editFiles_prepared w requirements filesToEdit s modelArg env Hmodel)
    as Hrun.
  cbv zeta in Hrun. unfold CodeEditor.messageFilePath in Hrun.
  fold entered in Hrun. fold now in Hrun.
  fold llmHistoryFile in Hrun. rewrite Hwrite in Hrun.
  rewrite (filter_keepFile_blank _ Hblank) in Hrun.
  unfold edit. rewrite (eventsOf_after _ _ _ _ Hrun).
  split; reflexivity.
Qed.

Lemma editor_runs_without_files_when_all_blank_witness :
  let w := Scenario.world [Scenario.project] Scenario.execOk in
  let edit := CodeEditor.editFilesToMeetRequirements w "req"
                [None; Some ""; Some "  "]%string in
  aiderCommands (eventsOf edit initialState)
  = [("aider --no-check-update --yes --sonnet --llm-history-file="
      ++ Js.dq ++ ".nous/aider/llm-history/agent-1700000000000" ++ Js.dq
      ++ " --message-file=.aider-requirements ")%string]
  /\ count (isExecBy Aider) (eventsOf edit initialState) = 1%nat.
Proof.
  intros w edit.
  apply (editor_runs_without_files_when_all_blank w "req"
           [None; Some ""; Some "  "]%string initialState
           "--sonnet" (EnvVars "ANTHROPIC_API_KEY" "k")).
  - reflexivity.
  - reflexivity.
  - reflexivity.
Defined.

(** ** Package installation *)

Lemma installs_exact (projectInfo : ProjectInfo) packages s :
  forEach packages (fun packageName =>
    if languageTools projectInfo
    then emit (EvInstallPackage packageName)
    else ret tt) s
  = (Ok tt, after s (if languageTools projectInfo
                     then map EvInstallPackage packages else [])).
Proof.
  revert s. induction packages as [|p packages IH]; intros s; cbn [forEach map].
  - unfold ret. destruct (languageTools projectInfo); rewrite after_nil; reflexivity.
  - rewrite bind_run. destruct (languageTools projectInfo) eqn:Htools.
    + rewrite emit_run. cbv beta iota. rewrite IH, after_after. reflexivity.
    + unfold ret at 1. cbv beta iota. rewrite IH. reflexivity.
Qed.

(** X2.  A retry of the edit-compile loop installs the packages named by
    the previous diagnosis, one call each and in their order, before it
    invokes the editor, provided the project has language tools; without
    language tools, or without packages in the diagnosis, it installs
    nothing and goes straight to the editor. *)
Theorem diagnosed_packages_installed_before_edit
    w i implementationRequirements projectInfo diagnosis message s :
  let packages :=
    match installPackages diagnosis with Some l => l | None => [] end in
  let installs :=
    if languageTools projectInfo then map EvInstallPackage packages else [] in
  exists requirements files rest,
    eventsOf (editCompileTry w (S i) implementationRequirements projectInfo
                (Some diagnosis) (Some message)) s
    = installs ++ EvEditFiles requirements files :: rest.
Proof.
  intros packages installs.
  set (round := editCompileTry w (S i) implementationRequirements projectInfo
                  (Some diagnosis) (Some message)).
  assert (Hinst :
    match installPackages diagnosis with
    | Some packages =>
        forEach packages (fun packageName =>
          if languageTools projectInfo
          then emit (EvInstallPackage packageName) else ret tt)
    | None => ret tt
    end s = (Ok tt, after s installs)).
  { unfold installs, packages. destruct (installPackages diagnosis) as [l|].
    - apply installs_exact.
    - unfold ret. destruct (languageTools projectInfo); rewrite after_nil; reflexivity. }
  pose proof (eq_refl (round s)) as HL. unfold round at 1 in HL.
  unfold editCompileTry in HL.
  rewrite bind_run in HL. unfold getSelected at 1 in HL. cbv beta iota in HL.
  rewrite bind_run in HL. rewrite Hinst in HL. cbv beta iota in HL.
  rewrite bind_run in HL. change (Nat.eqb (S i) 0) with false in HL.
  cbv beta iota in HL. unfold ret at 1 in HL. cbv beta iota in HL.
  rewrite bind_run in HL.
  match type of HL with
  | context [CodeEditor.editFilesToMeetRequirements w ?req ?files ?st] =>
      destruct (editFiles_run w req files st) as (r & internal & Hedit & _);
      rewrite Hedit in HL; clear Hedit; exists req, files
  end.
  cbv beta iota in HL. rewrite after_after in HL.
  destruct r as [[]|thrown].
  - rewrite bind_run in HL. unfold ask at 1 in HL. cbv beta iota in HL.
    rewrite bind_run in HL. unfold pushSelected at 1 in HL. cbv beta iota in HL.
    rewrite compile_run in HL. cbv zeta in HL.
    unfold after in HL. cbn [history initialSelectedFiles] in HL.
    eexists. unfold eventsOf. rewrite <- HL. cbn [snd history].
    rewrite <- !app_assoc. rewrite skipn_length_app. cbn [app]. reflexivity.
  - eexists. unfold eventsOf. rewrite <- HL. unfold after. cbn [snd history].
    rewrite skipn_length_app. reflexivity.
Qed.

(** The run of a project with language tools whose first diagnosis names
    two packages: both are installed, in order, right after the analysis and
    right before the editor is entered. *)
Example packages_installed_in_order :
  let w := {| detectProjectInfo := fun _ => [Scenario.fullProject];
              getWorkingDirectory := fun _ => "/repo";
              pathJoin := fun a b => (a ++ "/" ++ b)%string;
              selectFilesToEdit := fun _ _ _ =>
                {| primaryFiles := []; secondaryFiles := [] |};
              getMultipleFileContentsAsXml := fun _ _ => "";
              listFilesRecursively := fun _ => [];
              generateText := fun _ _ => "design";
              generateTextAsJson := fun _ _ => [];
              analyzeCompileErrors := fun _ _ _ => Scenario.packagesDiagnosis;
              execCommand := Scenario.execOk;
              getFilesAddedInHeadCommit := fun _ => [];
              writeFileSync := fun _ _ => None;
              dateNow := fun _ => 0;
              agentId := "agent";
              basePrompt := "";
              userAnthropicKey := Some "k";
              envAnthropicKey := None;
              userDeepseekKey := None;
              envDeepseekKey := None;
              userOpenaiKey := None;
              envOpenaiKey := None |} in
  let run := runCodeEditWorkflow w "req" None initialState in
  map isInstallPackage (firstn 3 (skipn 4 (history (snd run)))) = [false; true; true]
  /\ firstn 2 (skipn 5 (history (snd run)))
     = [EvInstallPackage "left-pad"; EvInstallPackage "chalk"]
  /\ map isEditFiles (firstn 1 (skipn 7 (history (snd run)))) = [true].
Proof.
  intros w run. repeat split; vm_compute; reflexivity.
Qed.

(** ** Counts of the test loop *)

Lemma testsFollowCompile_app b l1 l2 :
  testsFollowCompile b l1 = true ->
  (forall b', testsFollowCompile b' l2 = true) ->
  testsFollowCompile b (l1 ++ l2) = true.
Proof.
  revert b. induction l1 as [|e l1 IH]; intros b H1 H2; cbn [app]; [apply H2|].
  cbn [testsFollowCompile] in *. apply andb_true_iff in H1. destruct H1 as [He H1].
  rewrite He. cbn [andb]. apply IH; assumption.
Qed.

Lemma testsFollowCompile_internal b internal :
  forallb isEditorInternal internal = true ->
  testsFollowCompile b internal = true.
Proof.
  revert b. induction internal as [|e internal IH]; intros b Hall; [reflexivity|].
  cbn [forallb] in Hall. apply andb_true_iff in Hall. destruct Hall as [He Hall].
  cbn [testsFollowCompile]. rewrite (IH _ Hall), andb_true_r.
  destruct e; try discriminate He; try reflexivity.
  destruct by_; try discriminate He. reflexivity.
Qed.

(** Closes the side goals of the counting lemmas. *)
Ltac fin :=
  try discriminate; try congruence;
  try (exfalso; match goal with H : ?x <> ?x |- _ => apply H; reflexivity end);
  try (counts; cbn [isAnalyze Nat.add]; lia).

(** One round of the test loop: one editor invocation, at most one compile,
    a test run only after a compile, and nothing else. *)
Lemma testTry_counts w requirements projectInfo s :
  exists r evs,
    testTry w requirements projectInfo s = (r, after s evs)
    /\ count isEditFiles evs = 1%nat
    /\ (count (isExecBy Tests) evs <= count (isExecBy Compile) evs <= 1)%nat
    /\ count isAnalyze evs = O
    /\ count (isExecBy StaticAnalysis) evs = O
    /\ count isCommit evs = O
    /\ count isTestLoop evs = O
    /\ (forall b, testsFollowCompile b evs = true)
    /\ (Js.truthy (test projectInfo) = false -> count (isExecBy Tests) evs = O).
Proof.
  destruct (testTry_shape w requirements projectInfo s)
    as (r & internal & tail & Hrun & Hinternal & Htail).
  cbv zeta in Hrun. eexists _, _. split; [exact Hrun|].
  assert (Hfollow : forall tail',
            (forall b, testsFollowCompile b tail' = true) ->
            forall b,
              testsFollowCompile b
                (EvEditFiles (testRequirements requirements) (initialSelectedFiles s)
                 :: internal ++ tail') = true).
  { intros tail' Htail' b. cbn [testsFollowCompile isExecBy andb].
    apply testsFollowCompile_app; [|exact Htail'].
    apply testsFollowCompile_internal. exact Hinternal. }
  destruct Htail as [(-> & _) | [(cwd & -> & Hcase) | (cwd & -> & Ht)]];
    repeat split; fin; apply Hfollow; reflexivity.
Qed.

(** All runs of the test loop, counted. *)
Lemma testLoop_counts w requirements projectInfo projectPath s :
  exists r evs,
    testLoop w requirements projectInfo projectPath s = (Ok r, after s evs)
    /\ count isTestLoop evs = 1%nat
    /\ (count isEditFiles evs <= 2)%nat
    /\ (count (isExecBy Tests) evs <= count (isExecBy Compile) evs <= 2)%nat
    /\ (count isAnalyze evs <= 2)%nat
    /\ count (isExecBy StaticAnalysis) evs = O
    /\ count isCommit evs = O
    /\ (forall b, testsFollowCompile b evs = true)
    /\ (r <> None -> count isEditFiles evs = 2%nat /\ count isAnalyze evs = 2%nat)
    /\ (Js.truthy (test projectInfo) = false ->
        r = None /\ evs = [EvTestLoop]).
Proof.
  destruct (Js.truthy (test projectInfo)) eqn:Ht.
  - rewrite (testLoop_run _ _ _ _ _ Ht). cbv zeta.
    destruct (testTry_counts w requirements projectInfo (after s [EvTestLoop]))
      as (r1 & evs1 & -> & He1 & Hc1 & Ha1 & Hs1 & Hk1 & Hl1 & Hf1 & _).
    destruct r1 as [[]|output1].
    + eexists _, _. rewrite after_after. split; [reflexivity|].
      repeat split; fin.
      intros b. cbn [app testsFollowCompile isExecBy andb]. apply Hf1.
    + match goal with |- context [testTry w requirements projectInfo ?s3] =>
        destruct (testTry_counts w requirements projectInfo s3)
          as (r2 & evs2 & -> & He2 & Hc2 & Ha2 & Hs2 & Hk2 & Hl2 & Hf2 & _)
      end.
      assert (Hfollow : forall tail,
                (forall b, testsFollowCompile b tail = true) ->
                forall b,
                  testsFollowCompile b
                    ([EvTestLoop] ++ evs1
                     ++ [EvAnalyzeCompileErrors output1
                           (initialSelectedFiles (after (after s [EvTestLoop]) evs1))]
                     ++ evs2 ++ tail) = true).
      { intros tail Htail b. cbn [app testsFollowCompile isExecBy andb].
        apply testsFollowCompile_app; [apply Hf1|].
        intros b'. cbn [testsFollowCompile isExecBy andb].
        apply testsFollowCompile_app; [apply Hf2|exact Htail]. }
      destruct r2 as [[]|output2].
      * eexists _, _. rewrite !after_after. split; [reflexivity|].
        repeat split; fin.
        intros b. rewrite <- (app_nil_r evs2). apply Hfollow. reflexivity.
      * eexists _, _. rewrite !after_after. split; [reflexivity|].
        repeat split; fin.
        intros b. rewrite <- !app_assoc. apply Hfollow. reflexivity.
  - unfold testLoop. rewrite bind_run, emit_run. cbv beta iota. rewrite Ht.
    cbn [negb]. unfold ret. eexists _, _. split; [reflexivity|].
    repeat split; fin.
Qed.

(** X3.  The test loop returns a diagnosis only when both of its rounds
    failed: the project has a test command, the editor was invoked twice and
    the analyzer called twice, and what is returned is the analyzer's answer
    to the second failure, asked as the loop's last action with the working
    file set as it was passed in. *)
Theorem test_loop_diagnosis_after_two_failed_rounds
    w requirements projectInfo projectPath s diagnosis :
  let loop := testLoop w requirements projectInfo projectPath in
  let evs := eventsOf loop s in
  fst (loop s) = Ok (Some diagnosis) ->
  Js.truthy (test projectInfo) = true
  /\ count isEditFiles evs = 2%nat
  /\ count isAnalyze evs = 2%nat
  /\ exists before output,
       evs = before ++ [EvAnalyzeCompileErrors output (initialSelectedFiles s)]
       /\ diagnosis
          = analyzeCompileErrors w (history s ++ before) output (initialSelectedFiles s).
Proof.
  intros loop evs. unfold evs, loop.
  destruct (Js.truthy (test projectInfo)) eqn:Ht.
  2:{ unfold testLoop. rewrite bind_run, emit_run. cbv beta iota. rewrite Ht.
      discriminate. }
  unfold eventsOf. rewrite (testLoop_run _ _ _ _ _ Ht). cbv zeta.
  destruct (testTry_counts w requirements projectInfo (after s [EvTestLoop]))
    as (r1 & evs1 & -> & He1 & _ & Ha1 & _).
  destruct r1 as [[]|output1]; [discriminate|].
  match goal with |- context [testTry w requirements projectInfo ?s3] =>
    destruct (testTry_counts w requirements projectInfo s3)
      as (r2 & evs2 & -> & He2 & _ & Ha2 & _)
  end.
  destruct r2 as [[]|output2]; [discriminate|].
  cbn [fst]. intros Hsome. inversion Hsome as [Hdiagnosis]. clear Hsome.
  rewrite !after_after. cbn [snd after history initialSelectedFiles].
  rewrite skipn_length_app.
  split; [reflexivity|]. split; [fin|]. split; [fin|].
  eexists _, _. split; [reflexivity|]. rewrite <- !app_assoc. reflexivity.
Qed.

Lemma test_loop_diagnosis_after_two_failed_rounds_witness :
  let w := Scenario.world [Scenario.project] Scenario.execTestFails in
  let s := {| history := []; initialSelectedFiles := [Some "a.ts"] |} in
  let evs := eventsOf (testLoop w "req" Scenario.project "/repo/.") s in
  Js.truthy (test Scenario.project) = true
  /\ count isEditFiles evs = 2%nat
  /\ count isAnalyze evs = 2%nat
  /\ exists before output,
       evs = before ++ [EvAnalyzeCompileErrors output (initialSelectedFiles s)]
       /\ Scenario.diagnosis
          = analyzeCompileErrors w (history s ++ before) output (initialSelectedFiles s).
Proof.
  intros w s.
  apply (test_loop_diagnosis_after_two_failed_rounds w "req" Scenario.project
           "/repo/." s Scenario.diagnosis).
  vm_compute. reflexivity.
Defined.

(** X4.  In every run of the test loop each execution of the test command
    is directly preceded by an execution of the compile command, on the
    retry as on the first round; there are at most two of each. *)
Theorem test_loop_compiles_before_each_test w requirements projectInfo projectPath s :
  let evs := eventsOf (testLoop w requirements projectInfo projectPath) s in
  testsFollowCompile false evs = true
  /\ (count (isExecBy Tests) evs <= count (isExecBy Compile) evs <= 2)%nat.
Proof.
  intros evs. unfold evs.
  destruct (testLoop_counts w requirements projectInfo projectPath s)
    as (r & evs' & Hrun & _ & _ & Hc & _ & _ & _ & Hf & _).
  rewrite (eventsOf_after _ _ _ _ Hrun). split; [apply Hf|exact Hc].
Qed.

(** ** Counts of the whole workflow *)

Lemma resolvesTo_unique w projectInfo p q :
  resolvesTo w projectInfo p -> resolvesTo w projectInfo q -> p = q.
Proof.
  intros [Hp | (Hp & Hdp)] [Hq | (Hq & Hdq)]; congruence.
Qed.

(** The first part of the workflow, counted. *)
Lemma stage_counts w requirements projectInfo :
  (projectInfo = None
   /\ List.length (detectProjectInfo w []) <> 1%nat
   /\ editCompileStage w requirements projectInfo initialState
      = (Throw "projectInfo array must have one item",
         {| history := [EvDetectProjectInfo]; initialSelectedFiles := [] |}))
  \/ exists g s,
       editCompileStage w requirements projectInfo initialState = (Ok g, s)
       /\ resolvesTo w projectInfo (gateProject g)
       /\ count isEditFiles (history s) = 1%nat
       /\ (count (isExecBy Compile) (history s) <= 1)%nat
       /\ (1 <= count isAnalyze (history s) <= 2)%nat
       /\ count (isExecBy StaticAnalysis) (history s) = O
       /\ count isCommit (history s) = O
       /\ count isTestLoop (history s) = O
       /\ count (isExecBy Tests) (history s) = O
       /\ (gateAnalysis g = None -> count isAnalyze (history s) = 1%nat).
Proof.
  stage_cases w requirements projectInfo.
  - left. repeat split; assumption.
  - right. eexists _, _. split; [exact Hstage|]. cbn [gateProject gateAnalysis history].
    split; [destruct Hpre as [(-> & _) | (-> & _ & Hd)]; [left|right; split]; auto|].
    destruct Hpre as [(_ & ->) | (_ & -> & _)]; repeat split; fin.
  - right. eexists _, _. split; [exact Hstage|]. cbn [gateProject gateAnalysis history].
    split; [destruct Hpre as [(-> & _) | (-> & _ & Hd)]; [left|right; split]; auto|].
    destruct Hpre as [(_ & ->) | (_ & -> & _)]; repeat split; fin.
  - right. eexists _, _. split; [exact Hstage|]. cbn [gateProject gateAnalysis history].
    split; [destruct Hpre as [(-> & _) | (-> & _ & Hd)]; [left|right; split]; auto|].
    destruct Hpre as [(_ & ->) | (_ & -> & _)]; repeat split; fin.
Qed.

(** The static-analysis stage, counted. *)
Lemma staticAnalysisStage_counts w projectInfo compileErrorOutput s :
  exists r evs,
    staticAnalysisStage w projectInfo compileErrorOutput s = (r, after s evs)
    /\ (count isEditFiles evs <= 1)%nat
    /\ (count (isExecBy StaticAnalysis) evs <= 2)%nat
    /\ count isCommit evs = count (isExecBy StaticAnalysis) evs
    /\ count (isExecBy Compile) evs = O
    /\ count (isExecBy Tests) evs = O
    /\ count isAnalyze evs = O
    /\ count isTestLoop evs = O
    /\ (forall b, testsFollowCompile b evs = true)
    /\ (r = Ok tt
        \/ (Js.truthy (staticAnalysis projectInfo) = true
            /\ count (isExecBy StaticAnalysis) evs = 1%nat))
    /\ (Js.truthy (staticAnalysis projectInfo) = false -> r = Ok tt /\ evs = []).
Proof.
  unfold staticAnalysisStage.
  destruct (Js.truthy (staticAnalysis projectInfo)) eqn:Hsa.
  - destruct (staticAnalysisLoop_shape w projectInfo compileErrorOutput s Hsa)
      as [(_ & Hrun)
         | (_ & filenames & files & internal & Hinternal & [(thrown & Hrun) | Hrun])];
      cbv zeta in Hrun; rewrite Hrun; eexists _, _; (split; [reflexivity|]);
      repeat split; fin; auto;
      try (intros b; cbn [app testsFollowCompile isExecBy andb];
           first [ reflexivity
                 | apply testsFollowCompile_internal; exact Hinternal
                 | apply testsFollowCompile_app;
                   [apply testsFollowCompile_internal; exact Hinternal
                   |intros b'; reflexivity] ]).
  - exists (Ok tt), []. rewrite after_nil. split; [reflexivity|].
    repeat split; fin; auto.
Qed.

(** The stages after the compile gate, counted. *)
Lemma afterEditCompile_counts w requirements g s :
  gateAnalysis g = None ->
  exists r evs,
    afterEditCompile w requirements g s = (r, after s evs)
    /\ (count isEditFiles evs <= 3)%nat
    /\ (count (isExecBy Tests) evs <= count (isExecBy Compile) evs <= 2)%nat
    /\ (count isAnalyze evs <= 2)%nat
    /\ (count (isExecBy StaticAnalysis) evs <= 2)%nat
    /\ count isCommit evs = count (isExecBy StaticAnalysis) evs
    /\ ((r = Ok tt /\ count isTestLoop evs = 1%nat)
        \/ (threw r = true
            /\ Js.truthy (staticAnalysis (gateProject g)) = true
            /\ count (isExecBy StaticAnalysis) evs = 1%nat
            /\ count isTestLoop evs = O
            /\ count (isExecBy Tests) evs = O))
    /\ (Js.truthy (staticAnalysis (gateProject g)) = false ->
        r = Ok tt /\ count (isExecBy StaticAnalysis) evs = O)
    /\ (Js.truthy (test (gateProject g)) = false ->
        count (isExecBy Tests) evs = O /\ count (isExecBy Compile) evs = O
        /\ (count isEditFiles evs <= 1)%nat /\ count isAnalyze evs = O).
Proof.
  intros Hgate. unfold afterEditCompile. rewrite Hgate. rewrite bind_run.
  destruct (staticAnalysisStage_counts w (gateProject g) (gateOutput g) s)
    as (r1 & evs1 & -> & He1 & Hs1 & Hk1 & Hc1 & Ht1 & Ha1 & Hl1 & _ & Hr1 & Hno1).
  destruct r1 as [[]|thrown].
  - rewrite bind_run.
    destruct (testLoop_counts w requirements (gateProject g) (gateProjectPath g)
                (after s evs1))
      as (r2 & evs2 & -> & Hl2 & He2 & Hc2 & Ha2 & Hs2 & Hk2 & _ & _ & Hno2).
    rewrite after_after. unfold ret. eexists _, _. split; [reflexivity|].
    rewrite !count_app.
    split; [lia|]. split; [lia|]. split; [lia|]. split; [lia|]. split; [lia|].
    split; [left; split; [reflexivity|lia]|].
    split.
    + intros Hno. destruct (Hno1 Hno) as [_ ->]. cbn. split; [reflexivity|lia].
    + intros Hno. destruct (Hno2 Hno) as [_ ->]. cbn. lia.
  - destruct Hr1 as [Hr1 | (Hsa & Hone)]; [discriminate|].
    eexists _, _. split; [reflexivity|].
    split; [lia|]. split; [lia|]. split; [lia|]. split; [lia|]. split; [lia|].
    split; [right; repeat split; assumption|].
    split.
    + intros Hno. destruct (Hno1 Hno) as [Hr _]. discriminate Hr.
    + intros Hno. lia.
Qed.

(** The whole workflow is its first part and, when the compile gate is
    passed, the later stages. *)
Ltac workflow_cases w requirements projectInfo :=
  unfold runCodeEditWorkflow; rewrite bind_run;
  destruct (stage_counts w requirements projectInfo)
    as [(Hnone & Hlen & ->)
       | (g & s1 & -> & Hres & He & Hc & Ha & Hs & Hk & Hl & Ht & Hgate)];
  [ cbn [fst snd history]
  | destruct (gateAnalysis g) as [a|] eqn:Hg;
    [ unfold afterEditCompile; rewrite Hg; unfold ret; cbn [fst snd]
    | destruct (afterEditCompile_counts w requirements g s1 Hg)
        as (r & evs & -> & He' & Hc' & Ha' & Hs' & Hk' & Hr' & Hnosa & Hnotest);
      specialize (Hgate eq_refl);
      cbn [fst snd history after]; rewrite ?count_app ] ].

(** X5.  Every run of the workflow is bounded: at most 4 editor invocations,
    3 compile executions, 2 test executions, 2 static-analysis executions
    with as many commits, 3 calls of the error analyzer and 1 entry into the
    test loop. *)
Theorem workflow_calls_are_bounded w requirements projectInfo :
  let h := history (snd (runCodeEditWorkflow w requirements projectInfo initialState)) in
  (count isEditFiles h <= 4)%nat
  /\ (count (isExecBy Compile) h <= 3)%nat
  /\ (count (isExecBy Tests) h <= 2)%nat
  /\ (count (isExecBy StaticAnalysis) h <= 2)%nat
  /\ count isCommit h = count (isExecBy StaticAnalysis) h
  /\ (count isAnalyze h <= 3)%nat
  /\ (count isTestLoop h <= 1)%nat.
Proof.
  intros h. unfold h. workflow_cases w requirements projectInfo.
  - repeat split; fin.
  - repeat split; lia.
  - destruct Hr' as [(_ & Hl') | (_ & _ & _ & Hl' & _)]; repeat split; lia.
Qed.

(** X7.  For a project without a static-analysis command (missing or
    empty) the workflow runs no static analysis and makes no commit,
    whatever else happens in the run. *)
Theorem workflow_without_static_analysis w requirements projectInfo project :
  resolvesTo w projectInfo project ->
  Js.truthy (staticAnalysis project) = false ->
  let run := runCodeEditWorkflow w requirements projectInfo initialState in
  count (isExecBy StaticAnalysis) (history (snd run)) = O
  /\ count isCommit (history (snd run)) = O.
Proof.
  intros Hproject Hsa run. unfold run. workflow_cases w requirements projectInfo.
  - split; reflexivity.
  - split; assumption.
  - rewrite (resolvesTo_unique _ _ _ _ Hres Hproject) in Hnosa.
    destruct (Hnosa Hsa) as [_ Hzero]. split; lia.
Qed.

Lemma workflow_without_static_analysis_witness :
  let w := Scenario.world [Scenario.project] Scenario.execTestFailsOnce in
  let run := runCodeEditWorkflow w "req" (Some Scenario.project) initialState in
  count (isExecBy StaticAnalysis) (history (snd run)) = O
  /\ count isCommit (history (snd run)) = O.
Proof.
  intros w.
  apply (workflow_without_static_analysis w "req" (Some Scenario.project)
           Scenario.project).
  - left. reflexivity.
  - reflexivity.
Defined.

(** X8.  For a project without a test command (missing or empty) the test
    stage does nothing: no test is run, and the whole run has at most 2
    editor invocations, 1 compile execution and 2 calls of the error
    analyzer. *)
Theorem workflow_without_test_command w requirements projectInfo project :
  resolvesTo w projectInfo project ->
  Js.truthy (test project) = false ->
  let h := history (snd (runCodeEditWorkflow w requirements projectInfo initialState)) in
  count (isExecBy Tests) h = O
  /\ (count isEditFiles h <= 2)%nat
  /\ (count (isExecBy Compile) h <= 1)%nat
  /\ (count isAnalyze h <= 2)%nat.
Proof.
  intros Hproject Htest h. unfold h. workflow_cases w requirements projectInfo.
  - repeat split; fin.
  - repeat split; lia.
  - rewrite (resolvesTo_unique _ _ _ _ Hres Hproject) in Hnotest.
    destruct (Hnotest Htest) as (Hzero & Hzero' & Hedits & Hzero''). repeat split; lia.
Qed.

Lemma workflow_without_test_command_witness :
  let w := Scenario.world [Scenario.lintedProject] Scenario.execLintFails in
  let h := history (snd (runCodeEditWorkflow w "req" None initialState)) in
  count (isExecBy Tests) h = O
  /\ (count isEditFiles h <= 2)%nat
  /\ (count (isExecBy Compile) h <= 1)%nat
  /\ (count isAnalyze h <= 2)%nat.
Proof.
  intros w.
  apply (workflow_without_test_command w "req" None Scenario.lintedProject).
  - right. split; reflexivity.
  - reflexivity.
Defined.

(** X1.  What the edit-compile loop does to the working file set.  When
    no compile is executed, which is when the editor invocation of the retry
    threw, the set is left as it was.  Otherwise the files that version
    control reports as added in the head commit, asked once the editor has
    returned, are appended to the set before the compile command is
    executed, and they stay there when that compile fails: the analyzer is
    then called, as the last action of the loop, with the output of the
    failed compile and the extended set. *)
Theorem edit_compile_loop_keeps_committed_files w implementationRequirements info s :
  let loop := editCompileLoop w MAX_ATTEMPTS 0 implementationRequirements info
                None None in
  let evs := eventsOf loop s in
  (count (isExecBy Compile) evs = O
   /\ initialSelectedFiles (snd (loop s)) = initialSelectedFiles s)
  \/ exists before,
       let trace := history s ++ before in
       let cwd := getWorkingDirectory w trace in
       let rc := execCommand w trace (compileCmd info) (Cwd cwd) in
       let files := initialSelectedFiles s ++ getFilesAddedInHeadCommit w trace in
       count (isExecBy Compile) before = O
       /\ initialSelectedFiles (snd (loop s)) = files
       /\ evs = before
                ++ EvExec Compile (compileCmd info) (Cwd cwd)
                   :: (if 0 <? exitCode rc
                       then [EvAnalyzeCompileErrors
                               (compileOutput (compileCmd info) (stdout rc) (stderr rc))
                               files]
                       else []).
Proof.
  intros loop evs. unfold evs, loop, eventsOf.
  destruct (editCompileLoop_run w implementationRequirements info s)
    as (installs & internal & Hinstalls & Hinternal & Hloop).
  cbv zeta in Hloop.
  destruct Hloop as [(thrown & ->) | [(Hexit & ->) | (Hexit & ->)]];
    cbn [fst snd history initialSelectedFiles after].
  - left. rewrite skipn_length_app. split; [counts|reflexivity].
  - right. eexists. cbv zeta. rewrite Hexit.
    split; [|split; [reflexivity|rewrite skipn_length_app; reflexivity]].
    counts.
  - right. eexists. cbv zeta. rewrite Hexit.
    split; [|split; [reflexivity|rewrite skipn_length_app; reflexivity]].
    counts.
Qed.

(** The loop of a run in which the editor's commit adds [new.ts] and the
    compile that follows fails. *)
Example committed_file_reaches_analyzer :
  let w := Scenario.committing in
  let s := {| history := []; initialSelectedFiles := [Some "a.ts"] |} in
  let loop := editCompileLoop w MAX_ATTEMPTS 0 "design" Scenario.project None None in
  initialSelectedFiles (snd (loop s)) = [Some "a.ts"; Some "new.ts"]
  /\ last (eventsOf loop s) EvTestLoop
     = EvAnalyzeCompileErrors (compileOutput "build" "" "error TS1005")
         [Some "a.ts"; Some "new.ts"].
Proof.
  intros w s loop. split; vm_compute; reflexivity.
Qed.

(** ** What happens once per run *)

Lemma testTry_no_setup w requirements projectInfo s :
  exists r evs,
    testTry w requirements projectInfo s = (r, after s evs)
    /\ count isSetup evs = O.
Proof.
  destruct (testTry_shape w requirements projectInfo s)
    as (r & internal & tail & Hrun & Hinternal & Htail).
  cbv zeta in Hrun. eexists _, _. split; [exact Hrun|].
  destruct Htail as [(-> & _) | [(cwd & -> & _) | (cwd & -> & _)]];
    counts; cbn [isSetup Nat.add]; lia.
Qed.

Lemma afterEditCompile_no_setup w requirements g s :
  exists r evs,
    afterEditCompile w requirements g s = (r, after s evs)
    /\ count isSetup evs = O.
Proof.
  unfold afterEditCompile. destruct (gateAnalysis g).
  { exists (Ok tt), []. rewrite after_nil. split; reflexivity. }
  rewrite bind_run.
  assert (Hstatic : exists r evs,
            staticAnalysisStage w (gateProject g) (gateOutput g) s = (r, after s evs)
            /\ count isSetup evs = O).
  { unfold staticAnalysisStage.
    destruct (Js.truthy (staticAnalysis (gateProject g))) eqn:Hsa.
    - destruct (staticAnalysisLoop_shape w (gateProject g) (gateOutput g) s Hsa)
        as [(_ & Hrun)
           | (_ & filenames & files & internal & Hinternal
              & [(thrown & Hrun) | Hrun])];
        cbv zeta in Hrun; rewrite Hrun; eexists _, _; (split; [reflexivity|]);
        counts; cbn [isSetup Nat.add]; lia.
    - exists (Ok tt), []. rewrite after_nil. split; reflexivity. }
  destruct Hstatic as (r1 & evs1 & -> & Hz1).
  destruct r1 as [[]|thrown]; [|eexists _, _; split; [reflexivity|exact Hz1]].
  rewrite bind_run.
  assert (Htest : forall s1, exists r evs,
            testLoop w requirements (gateProject g) (gateProjectPath g) s1
            = (Ok r, after s1 evs)
            /\ count isSetup evs = O).
  { intros s1. destruct (Js.truthy (test (gateProject g))) eqn:Ht.
    - rewrite (testLoop_run _ _ _ _ _ Ht). cbv zeta.
      destruct (testTry_no_setup w requirements (gateProject g)
                  (after s1 [EvTestLoop])) as (r2 & evs2 & -> & Hz2).
      destruct r2 as [[]|output1].
      + rewrite after_after. eexists _, _. split; [reflexivity|].
        rewrite count_app, Hz2. reflexivity.
      + match goal with |- context [testTry w requirements (gateProject g) ?s3] =>
          destruct (testTry_no_setup w requirements (gateProject g) s3)
            as (r3 & evs3 & -> & Hz3)
        end.
        destruct r3 as [[]|output2]; rewrite !after_after;
          eexists _, _; (split; [reflexivity|]);
          rewrite !count_app, Hz2, Hz3; reflexivity.
    - unfold testLoop. rewrite bind_run, emit_run. cbv beta iota. rewrite Ht.
      eexists _, _. split; reflexivity. }
  destruct (Htest (after s evs1)) as (r2 & evs2 & -> & Hz2).
  rewrite after_after. eexists _, _. split; [reflexivity|].
  rewrite count_app, Hz1, Hz2. reflexivity.
Qed.

(** X18.  Everything that prepares a run happens once, at its start, in a
    fixed order: the working directory is set to the project's base
    directory, then the files are selected, then the implementation
    specification is generated; project detection precedes them when no
    project was passed.  No retry of any loop detects, selects or generates
    the specification again. *)
Theorem setup_happens_once w requirements projectInfo project :
  resolvesTo w projectInfo project ->
  let trace := history (snd (runCodeEditWorkflow w requirements projectInfo initialState)) in
  exists pre prompt rest,
    trace = pre ++ [EvSetWorkingDirectory (baseDir project);
                EvSelectFilesToEdit requirements;
                EvGenerateText prompt] ++ rest
    /\ pre = match projectInfo with Some _ => [] | None => [EvDetectProjectInfo] end
    /\ count isSetup rest = O.
Proof.
  intros Hproject trace. unfold trace, runCodeEditWorkflow. rewrite bind_run.
  stage_cases w requirements projectInfo.
  - exfalso. destruct Hproject as [-> | (_ & Hd)]; [discriminate|].
    cbn [history initialState] in Hlen. rewrite Hd in Hlen. apply Hlen. reflexivity.
  - assert (info = project) as ->.
    { apply (resolvesTo_unique w projectInfo); [|exact Hproject].
      destruct Hpre as [(-> & _) | (-> & _ & Hd)]; [left|right; split]; auto. }
    rewrite Hstage.
    match goal with |- context [afterEditCompile w requirements ?g ?s] =>
      destruct (afterEditCompile_no_setup w requirements g s) as (r & evs & -> & Hz)
    end.
    unfold after. cbn [snd history].
    exists pre, prompt. eexists. split; [rewrite <- !app_assoc; reflexivity|].
    split; [destruct Hpre as [(-> & ->) | (-> & -> & _)]; reflexivity|].
    rewrite count_app, Hz. counts; cbn [isSetup Nat.add]; lia.
  - assert (info = project) as ->.
    { apply (resolvesTo_unique w projectInfo); [|exact Hproject].
      destruct Hpre as [(-> & _) | (-> & _ & Hd)]; [left|right; split]; auto. }
    rewrite Hstage.
    match goal with |- context [afterEditCompile w requirements ?g ?s] =>
      destruct (afterEditCompile_no_setup w requirements g s) as (r & evs & -> & Hz)
    end.
    unfold after. cbn [snd history].
    exists pre, prompt. eexists. split; [rewrite <- !app_assoc; reflexivity|].
    split; [destruct Hpre as [(-> & ->) | (-> & -> & _)]; reflexivity|].
    rewrite count_app, Hz. counts; cbn [isSetup Nat.add]; lia.
  - assert (info = project) as ->.
    { apply (resolvesTo_unique w projectInfo); [|exact Hproject].
      destruct Hpre as [(-> & _) | (-> & _ & Hd)]; [left|right; split]; auto. }
    rewrite Hstage.
    match goal with |- context [afterEditCompile w requirements ?g ?s] =>
      destruct (afterEditCompile_no_setup w requirements g s) as (r & evs & -> & Hz)
    end.
    unfold after. cbn [snd history].
    exists pre, prompt. eexists. split; [rewrite <- !app_assoc; reflexivity|].
    split; [destruct Hpre as [(-> & ->) | (-> & -> & _)]; reflexivity|].
    rewrite count_app, Hz. counts; cbn [isSetup Nat.add]; lia.
Qed.

Lemma setup_happens_once_witness :
  let w := Scenario.world [Scenario.project] Scenario.execTestFailsOnce in
  let h := history (snd (runCodeEditWorkflow w "req" None initialState)) in
  exists pre prompt rest,
    h = pre ++ [EvSetWorkingDirectory (baseDir Scenario.project);
                EvSelectFilesToEdit "req";
                EvGenerateText prompt] ++ rest
    /\ pre = [EvDetectProjectInfo]
    /\ count isSetup rest = O.
Proof.
  intros w.
  apply (setup_happens_once w "req" None Scenario.project).
  right. split; reflexivity.
Defined.
